(** * The Hildebrand Glow client library ([hildebrand.py])

    A shallow embedding of the module: the dynamically typed values the
    library passes around (JSON documents decoded by [json.loads]), the
    fragment of the Python operators the code applies to them, the transport
    function [postRequest], the [Glow] class with its attribute dictionary,
    and the utility [toCost].  Exceptions are explicit results; the network,
    the clock and the calendar are an environment the embedding is
    parameterised by.

    Conventions of the model:
    - a [float] is a binary64 number ([PrimFloat]), an [int] is unbounded;
      conversions between them round to nearest, ties to even, and raise
      [OverflowError] where CPython does;
    - a [str] is the byte string of its text, so indexing and iterating a
      [str] agree with Python on ASCII text;
    - memory is unbounded, except that a sequence cannot be longer than an
      index can address;
    - a mutable document is a value: the code never keeps two names for a
      document it changes, so updating in place and rebuilding agree;
    - an instance has only the attributes the class assigns. *)

From Stdlib Require Import ZArith Ascii String List PrimFloat FloatOps SpecFloat Lia.
From stdpp Require Import gmap strings list pretty.

Set Warnings "-inexact-float,-register-all".
Local Open Scope string_scope.
Local Open Scope Z_scope.

(** ** Python values *)

(** Subscripts used by the code: string keys and integer positions. *)
Inductive key :=
| KStr (s : string)
| KInt (i : Z).

(** What [json.loads] produces, plus [None] and raw [bytes].  A [str] is kept
    as the byte string of its UTF-8 encoding; a [float] is an IEEE binary64
    number, as in CPython.  A [dict] keeps insertion order. *)
Inductive value :=
| VNone
| VBool (b : bool)
| VInt (i : Z)
| VFloat (f : float)
| VStr (s : string)
| VBytes (b : list Byte.byte)
| VList (l : list value)
| VDict (d : list (key * value)).

Inductive exn :=
| TypeError
| KeyError (k : key)
| IndexError
| AttributeError (name : string)
| OverflowError
| ZeroDivisionError
| MemoryError
| ValueError
| RecursionError
| AuthFailure (msg : string)
| URLError (reason : string)
| TimeoutError.

Inductive result (A : Type) :=
| Ok (a : A)
| Raise (e : exn).
Arguments Ok {A} a.
Arguments Raise {A} e.

Definition rbind {A B} (r : result A) (k : A -> result B) : result B :=
  match r with
  | Ok a => k a
  | Raise e => Raise e
  end.

(** ** Numbers *)

Inductive num :=
| NInt (i : Z)
| NFloat (f : float).

(** [bool] is a subclass of [int]: [True] counts as 1 in arithmetic. *)
Definition as_num (v : value) : option num :=
  match v with
  | VBool b => Some (NInt (if b then 1 else 0))
  | VInt i => Some (NInt i)
  | VFloat f => Some (NFloat f)
  | _ => None
  end.

(** The JSON numbers: [int] and [float]. *)
Definition is_numeric (v : value) : bool :=
  match v with
  | VInt _ | VFloat _ => true
  | _ => false
  end.

(** The binary64 number nearest to [m * 2^e] (ties to even); infinite when
    the rounded value does not fit. *)
Definition round_to_float (m e : Z) : float :=
  SF2Prim (binary_normalize prec emax m e false).

(** [float(i)] as the arithmetic operators perform it: correctly rounded,
    [OverflowError] when the integer is too large. *)
Definition int_to_float (i : Z) : result float :=
  let f := round_to_float i 0 in
  if is_infinity f then Raise OverflowError else Ok f.

(** [a / b] on two integers: the correctly rounded quotient.  The quotient is
    taken with at least 55 significant bits and a sticky bit for the
    remainder, then rounded once. *)
Definition int_truediv (a b : Z) : result float :=
  if b =? 0 then Raise ZeroDivisionError
  else if a =? 0 then Ok (if b <? 0 then neg_zero else zero)
  else
    let k := 56 - (Z.log2 (Z.abs a) - Z.log2 (Z.abs b)) in
    let n := if 0 <=? k then Z.abs a * 2 ^ k else Z.abs a in
    let d := if 0 <=? k then Z.abs b else Z.abs b * 2 ^ (- k) in
    let m := 2 * (n / d) + (if n mod d =? 0 then 0 else 1) in
    let f := round_to_float (if Bool.eqb (a <? 0) (b <? 0) then m else - m) (- k - 1) in
    if is_infinity f then Raise OverflowError else Ok f.

Definition num_truediv (x y : num) : result value :=
  match x, y with
  | NInt a, NInt b => rbind (int_truediv a b) (fun f => Ok (VFloat f))
  | _, _ =>
    rbind (match x with NInt a => int_to_float a | NFloat f => Ok f end) (fun f =>
    rbind (match y with NInt b => int_to_float b | NFloat g => Ok g end) (fun g =>
    if is_zero g then Raise ZeroDivisionError else Ok (VFloat (f / g)%float)))
  end.

Definition num_mul (x y : num) : result value :=
  match x, y with
  | NInt a, NInt b => Ok (VInt (a * b))
  | _, _ =>
    rbind (match x with NInt a => int_to_float a | NFloat f => Ok f end) (fun f =>
    rbind (match y with NInt b => int_to_float b | NFloat g => Ok g end) (fun g =>
    Ok (VFloat (f * g)%float)))
  end.

(** ** Sequence repetition *)

Definition PY_SSIZE_T_MAX : Z := 2 ^ 63 - 1.

Fixpoint repeat_string (n : nat) (s : string) : string :=
  match n with
  | O => ""
  | S n' => s +:+ repeat_string n' s
  end.

Definition repeat_list {A} (n : nat) (l : list A) : list A :=
  List.concat (List.repeat l n).

(** [seq * n]: the count has to fit an index; a non-positive count gives the
    empty sequence; a result longer than an index can address is refused.
    Memory is otherwise taken to be sufficient. *)
Definition seq_repeat (v : value) (n : Z) : result value :=
  match v with
  | VStr s =>
    if (n <? - PY_SSIZE_T_MAX - 1) || (PY_SSIZE_T_MAX <? n) then Raise OverflowError
    else if n <=? 0 then Ok (VStr "")
    else if PY_SSIZE_T_MAX <? Z.of_nat (String.length s) * n then Raise OverflowError
    else Ok (VStr (repeat_string (Z.to_nat n) s))
  | VBytes b =>
    if (n <? - PY_SSIZE_T_MAX - 1) || (PY_SSIZE_T_MAX <? n) then Raise OverflowError
    else if n <=? 0 then Ok (VBytes [])
    else if PY_SSIZE_T_MAX <? Z.of_nat (List.length b) * n then Raise OverflowError
    else Ok (VBytes (repeat_list (Z.to_nat n) b))
  | VList l =>
    if (n <? - PY_SSIZE_T_MAX - 1) || (PY_SSIZE_T_MAX <? n) then Raise OverflowError
    else if n <=? 0 then Ok (VList [])
    else if PY_SSIZE_T_MAX <? Z.of_nat (List.length l) * n then Raise MemoryError
    else Ok (VList (repeat_list (Z.to_nat n) l))
  | _ => Raise TypeError
  end.

(** ** The operators [/], [*] and [==] *)

Definition py_truediv (a b : value) : result value :=
  match as_num a, as_num b with
  | Some x, Some y => num_truediv x y
  | _, _ => Raise TypeError
  end.

Definition py_mul (a b : value) : result value :=
  match as_num a, as_num b with
  | Some x, Some y => num_mul x y
  | None, Some (NInt n) => seq_repeat a n
  | Some (NInt n), None => seq_repeat b n
  | _, _ => Raise TypeError
  end.

(** [v == s] for a string literal [s]: never raises, true only for that
    very string. *)
Definition py_eq_str (v : value) (s : string) : bool :=
  match v with
  | VStr s' => String.eqb s' s
  | _ => false
  end.

(** ** [toCost] *)

(** [try: ... except: return 0]: the bare [except] catches every exception. *)
Definition toCost (rate ammount unit : value) : value :=
  match
    rbind (if py_eq_str unit "W" then py_truediv ammount (VInt 1000) else Ok ammount)
      (fun ammount => py_mul ammount rate)
  with
  | Ok v => v
  | Raise _ => VInt 0
  end.

(** ** Ordering a number against the clock

    Python orders [int] and [float] by their exact values.  Both are mapped
    to [m * 2^e], to an infinity, or to not-a-number, and compared there. *)

Inductive xnum :=
| XNaN
| XInf (negative : bool)
| XFin (m e : Z).

Definition xnum_of_float (f : float) : xnum :=
  match Prim2SF f with
  | S754_nan => XNaN
  | S754_infinity s => XInf s
  | S754_zero _ => XFin 0 0
  | S754_finite s m e => XFin (if s then Z.neg m else Z.pos m) e
  end.

Definition xnum_of_num (x : num) : xnum :=
  match x with
  | NInt i => XFin i 0
  | NFloat f => xnum_of_float f
  end.

(** [None] when one side is not-a-number: every ordering test is then false. *)
Definition xcompare (x y : xnum) : option comparison :=
  match x, y with
  | XNaN, _ | _, XNaN => None
  | XInf a, XInf b => Some (if a then (if b then Eq else Lt) else (if b then Gt else Eq))
  | XInf a, XFin _ _ => Some (if a then Lt else Gt)
  | XFin _ _, XInf b => Some (if b then Gt else Lt)
  | XFin m1 e1, XFin m2 e2 =>
    let e := Z.min e1 e2 in
    Some (m1 * 2 ^ (e1 - e) ?= m2 * 2 ^ (e2 - e))
  end.

Definition xle (x y : xnum) : bool :=
  match xcompare x y with
  | Some Lt | Some Eq => true
  | _ => false
  end.

Definition xlt (x y : xnum) : bool :=
  match xcompare x y with
  | Some Lt => true
  | _ => false
  end.

(** [a <= b] and [a < b]; a non-number on either side is a [TypeError] (the
    only right-hand side in this program is a [float]). *)
Definition py_le (a b : value) : result bool :=
  match as_num a, as_num b with
  | Some x, Some y => Ok (xle (xnum_of_num x) (xnum_of_num y))
  | _, _ => Raise TypeError
  end.

Definition py_lt (a b : value) : result bool :=
  match as_num a, as_num b with
  | Some x, Some y => Ok (xlt (xnum_of_num x) (xnum_of_num y))
  | _, _ => Raise TypeError
  end.

(** ** Truth value, subscription, iteration *)

(** [bool(v)]: [None], [False], zero and the empty containers are false. *)
Definition py_truthy (v : value) : bool :=
  match v with
  | VNone => false
  | VBool b => b
  | VInt i => negb (i =? 0)
  | VFloat f => negb (is_zero f)
  | VStr s => negb (String.eqb s "")
  | VBytes b => match b with [] => false | _ => true end
  | VList l => match l with [] => false | _ => true end
  | VDict d => match d with [] => false | _ => true end
  end.

Definition key_eqb (a b : key) : bool :=
  match a, b with
  | KStr s, KStr t => String.eqb s t
  | KInt i, KInt j => i =? j
  | _, _ => false
  end.

Fixpoint dict_get (d : list (key * value)) (k : key) : option value :=
  match d with
  | [] => None
  | (k', v) :: d' => if key_eqb k' k then Some v else dict_get d' k
  end.

(** [d[k] = v]: an existing key keeps its place, a new one goes last. *)
Fixpoint dict_set (d : list (key * value)) (k : key) (v : value) : list (key * value) :=
  match d with
  | [] => [(k, v)]
  | (k', v') :: d' => if key_eqb k' k then (k', v) :: d' else (k', v') :: dict_set d' k v
  end.

(** The position a sequence index denotes, negative indices counting from
    the end; [None] when out of range. *)
Definition seq_index (len : nat) (i : Z) : option nat :=
  if (0 <=? i) && (i <? Z.of_nat len) then Some (Z.to_nat i)
  else if (- Z.of_nat len <=? i) && (i <? 0) then Some (Z.to_nat (Z.of_nat len + i))
  else None.

(** [x[k]] *)
Definition py_getitem (x : value) (k : key) : result value :=
  match x, k with
  | VDict d, _ =>
    match dict_get d k with
    | Some v => Ok v
    | None => Raise (KeyError k)
    end
  | VList l, KInt i =>
    match seq_index (List.length l) i with
    | Some n => match l !! n with Some v => Ok v | None => Raise IndexError end
    | None => Raise IndexError
    end
  | VStr s, KInt i =>
    match seq_index (String.length s) i with
    | Some n => match String.get n s with Some c => Ok (VStr (String c "")) | None => Raise IndexError end
    | None => Raise IndexError
    end
  | VBytes b, KInt i =>
    match seq_index (List.length b) i with
    | Some n => match b !! n with Some c => Ok (VInt (Z.of_N (Byte.to_N c))) | None => Raise IndexError end
    | None => Raise IndexError
    end
  | _, _ => Raise TypeError
  end.

(** [x[k] = v], giving the container after the assignment.  Only a [dict]
    and a [list] accept it; a [list] raises out of range. *)
Definition py_setitem (x : value) (k : key) (v : value) : result value :=
  match x, k with
  | VDict d, _ => Ok (VDict (dict_set d k v))
  | VList l, KInt i =>
    match seq_index (List.length l) i with
    | Some n => Ok (VList (<[n := v]> l))
    | None => Raise IndexError
    end
  | _, _ => Raise TypeError
  end.

Definition value_of_key (k : key) : value :=
  match k with
  | KStr s => VStr s
  | KInt i => VInt i
  end.

(** The items [for r in v] runs over: the elements of a [list], the keys of a
    [dict], the characters of a [str], the bytes of a [bytes]. *)
Definition py_iter (v : value) : result (list value) :=
  match v with
  | VList l => Ok l
  | VDict d => Ok (List.map (fun kv => value_of_key (fst kv)) d)
  | VStr s => Ok (List.map (fun c => VStr (String c "")) (list_ascii_of_string s))
  | VBytes b => Ok (List.map (fun c => VInt (Z.of_N (Byte.to_N c))) b)
  | _ => Raise TypeError
  end.

(** [s + v] with a [str] on the left: only a [str] can be appended. *)
Definition str_add (s : string) (v : value) : result string :=
  match v with
  | VStr t => Ok (s +:+ t)
  | _ => Raise TypeError
  end.

(** [needle in hay] on two strings. *)
Fixpoint str_contains (needle hay : string) : bool :=
  String.prefix needle hay ||
  match hay with
  | EmptyString => false
  | String _ hay' => str_contains needle hay'
  end.

(** What [json.dumps] accepts among these values: everything but [bytes]. *)
Fixpoint json_serialisable (v : value) : bool :=
  match v with
  | VBytes _ => false
  | VList l => forallb json_serialisable l
  | VDict d => forallb (fun kv => json_serialisable (snd kv)) d
  | _ => true
  end.

(** ** [urllib.parse.urlencode] on string parameters *)

Definition is_unreserved (c : ascii) : bool :=
  let n := N_of_ascii c in
  ((48 <=? n) && (n <=? 57) || (65 <=? n) && (n <=? 90) || (97 <=? n) && (n <=? 122)
   || (n =? 95) || (n =? 46) || (n =? 45) || (n =? 126))%N.

Definition hex_digit (n : N) : ascii :=
  ascii_of_N (if (n <? 10)%N then 48 + n else 55 + n)%N.

(** [quote_plus]: letters, digits and [_.-~] stay, a space becomes [+],
    every other byte becomes [%XX]. *)
Fixpoint quote_plus (s : string) : string :=
  match s with
  | EmptyString => ""
  | String c s' =>
    (if is_unreserved c then String c ""
     else if Ascii.eqb c " " then "+"
     else String "%" (String (hex_digit (N_of_ascii c / 16)) (String (hex_digit (N_of_ascii c mod 16)) "")))
    +:+ quote_plus s'
  end.

Fixpoint urlencode (params : list (string * string)) : string :=
  match params with
  | [] => ""
  | [(k, v)] => quote_plus k +:+ "=" +:+ quote_plus v
  | (k, v) :: rest => quote_plus k +:+ "=" +:+ quote_plus v +:+ "&" +:+ urlencode rest
  end.

(** ** [datetime] *)

Record datetime := mkdatetime {
  dt_year : Z; dt_month : Z; dt_day : Z;
  dt_hour : Z; dt_minute : Z; dt_second : Z; dt_microsecond : Z }.

Definition is_leap (y : Z) : bool :=
  (y mod 4 =? 0) && (negb (y mod 100 =? 0) || (y mod 400 =? 0)).

Definition days_in_month (y m : Z) : Z :=
  if m =? 2 then (if is_leap y then 29 else 28)
  else if (m =? 4) || (m =? 6) || (m =? 9) || (m =? 11) then 30
  else 31.

(** [d - timedelta(minutes=30)]: borrow from the hour, the day, the month
    and the year in turn; before year 1 the result is out of range. *)
Definition minus_30_minutes (d : datetime) : result datetime :=
  let at_ y mo dd h mi := mkdatetime y mo dd h mi (dt_second d) (dt_microsecond d) in
  if 30 <=? dt_minute d then
    Ok (at_ (dt_year d) (dt_month d) (dt_day d) (dt_hour d) (dt_minute d - 30))
  else if 1 <=? dt_hour d then
    Ok (at_ (dt_year d) (dt_month d) (dt_day d) (dt_hour d - 1) (dt_minute d + 30))
  else if 2 <=? dt_day d then
    Ok (at_ (dt_year d) (dt_month d) (dt_day d - 1) 23 (dt_minute d + 30))
  else if 2 <=? dt_month d then
    Ok (at_ (dt_year d) (dt_month d - 1) (days_in_month (dt_year d) (dt_month d - 1)) 23 (dt_minute d + 30))
  else if 2 <=? dt_year d then
    Ok (at_ (dt_year d - 1) 12 31 23 (dt_minute d + 30))
  else Raise OverflowError.

Definition two_digits (n : Z) : string :=
  if n <? 10 then "0" +:+ pretty n else pretty n.

(** [d.strftime('%Y-%m-%dT%H:%M:00')]: the year as the C library prints it
    (no padding), the other fields on two digits. *)
Definition strftime_minute (d : datetime) : string :=
  pretty (dt_year d) +:+ "-" +:+ two_digits (dt_month d) +:+ "-" +:+ two_digits (dt_day d)
  +:+ "T" +:+ two_digits (dt_hour d) +:+ ":" +:+ two_digits (dt_minute d) +:+ ":00".

(** ** The environment: network, clock, calendar *)

(** A request as [postRequest] hands it to [urlopen]: the headers in the
    order they were added, and the dictionary that is sent as JSON text. *)
Record request := mkrequest {
  req_url : string;
  req_headers : list (string * value);
  req_data : option (list (string * value));
  req_timeout : Z }.

(** A response body: the bytes, and what [json.loads] makes of them
    ([None] when they are not JSON text). *)
Record body := mkbody {
  raw : list Byte.byte;
  parsed : option value }.

(** What [urllib.request.urlopen] does with a request: a 2xx response with
    its Content-Type header and body, an [HTTPError] for any other status,
    or another exception (a [URLError] when the name does not resolve or the
    connection fails, a timeout). *)
Inductive outcome :=
| Responded (content_type : option string) (b : body)
| HTTPError (code : Z) (reason : string)
| Failed (e : exn).

(** The JSON document a response is read as, if it is read as one. *)
Definition json_response (o : outcome) : option value :=
  match o with
  | Responded (Some ct) b => if str_contains "application/json" ct then parsed b else None
  | _ => None
  end.

Class Environment (W : Type) := {
  urlopen : request -> W -> outcome * W;
  time_time : W -> float * W;
  datetime_today : W -> datetime * W }.

(** The world a call runs in: the environment, every request issued so far
    with its outcome (latest first), and the lines logged (latest first). *)
Record world (W : Type) := mkworld {
  env : W;
  trace : list (request * outcome);
  logged : list string }.
Arguments mkworld {W} env trace logged.
Arguments env {W} w.
Arguments trace {W} w.
Arguments logged {W} w.

(** ** Computations: state and exceptions *)

Definition M (S A : Type) : Type := S -> result A * S.

Definition ret {S A} (a : A) : M S A := fun s => (Ok a, s).
Definition raise {S A} (e : exn) : M S A := fun s => (Raise e, s).
Definition bind {S A B} (m : M S A) (k : A -> M S B) : M S B :=
  fun s => match m s with
           | (Ok a, s') => k a s'
           | (Raise e, s') => (Raise e, s')
           end.
Definition lift {S A} (r : result A) : M S A := fun s => (r, s).

Declare Scope py_scope.
Delimit Scope py_scope with py.
Notation "x <- m ;; k" := (bind m (fun x => k))
  (at level 100, m at next level, right associativity) : py_scope.
Notation "m ;;; k" := (bind m (fun _ => k))
  (at level 100, right associativity) : py_scope.
Local Open Scope py_scope.

Section Client.
Context {W : Type} `{Environment W}.

(** API endpoints *)
Definition _BASE_URL : string := "https://api.glowmarkt.com/".
Definition _AUTH_REQ : string := _BASE_URL +:+ "api/v0-1/auth".
Definition _RESOURCE_REQ : string := _BASE_URL +:+ "api/v0-1/resource".

(** ** [postRequest] *)

Definition add_headers (head : option (list (string * value))) : list (string * value) :=
  ("Content-Type", VStr "application/json") ::
  match head with
  | Some h => h
  | None => []
  end.

(** [if body: body = json.dumps(body).encode('utf-8')]: an empty or absent
    dictionary is sent without data. *)
Definition encode_body (body : option (list (string * value)))
  : result (option (list (string * value))) :=
  match body with
  | Some (kv :: b) =>
    if forallb (fun kv => json_serialisable (snd kv)) (kv :: b) then Ok (Some (kv :: b))
    else Raise TypeError
  | _ => Ok None
  end.

Definition log_error (msg : string) : M (world W) unit :=
  fun w => (Ok tt, mkworld (env w) (trace w) (msg :: logged w)).

Definition do_urlopen (r : request) : M (world W) outcome :=
  fun w => let (o, e) := urlopen r (env w) in
           (Ok o, mkworld e ((r, o) :: trace w) (logged w)).

Definition postRequest (url : string) (head body : option (list (string * value)))
    (timeout : Z) : M (world W) value :=
  data <- lift (encode_body body) ;;
  o <- do_urlopen (mkrequest url (add_headers head) data timeout) ;;
  match o with
  | HTTPError code reason =>
    log_error ("code=" +:+ pretty code +:+ ", reason=" +:+ reason) ;;;
    ret VNone
  | Failed e => raise e
  | Responded None _ => raise TypeError
  | Responded (Some returnedContentType) b =>
    if str_contains "application/json" returnedContentType then
      match parsed b with
      | Some v => ret v
      | None => raise ValueError
      end
    else ret (VBytes (raw b))
  end.

(** ** The [Glow] class

    An instance is its attribute dictionary; a method runs on the instance
    and the world.  Reading an attribute that was never assigned raises
    [AttributeError]. *)

Definition get_attr (name : string) : M (gmap string value * world W) value :=
  fun s => match fst s !! name with
           | Some v => (Ok v, s)
           | None => (Raise (AttributeError name), s)
           end.

Definition set_attr (name : string) (v : value) : M (gmap string value * world W) unit :=
  fun s => (Ok tt, (<[name := v]> (fst s), snd s)).

(** A computation on the world alone, run from a method. *)
Definition io {A} (m : M (world W) A) : M (gmap string value * world W) A :=
  fun s => let (r, w) := m (snd s) in (r, (fst s, w)).

Definition clock : M (world W) float :=
  fun w => let (t, e) := time_time (env w) in (Ok t, mkworld e (trace w) (logged w)).

Definition today : M (world W) datetime :=
  fun w => let (d, e) := datetime_today (env w) in (Ok d, mkworld e (trace w) (logged w)).

(** The loop of [getResources]: both tests are made on every item, in
    order, so a later matching item overwrites an earlier one. *)
Fixpoint record_ids (rs : list value) : M (gmap string value * world W) unit :=
  match rs with
  | [] => ret tt
  | r :: rs' =>
    c <- lift (py_getitem r (KStr "classifier")) ;;
    (if py_eq_str c "electricity.consumption" then
       rid <- lift (py_getitem r (KStr "resourceId")) ;;
       set_attr "elecConsumptionId" rid
     else ret tt) ;;;
    c <- lift (py_getitem r (KStr "classifier")) ;;
    (if py_eq_str c "gas.consumption" then
       rid <- lift (py_getitem r (KStr "resourceId")) ;;
       set_attr "gasConsumptionId" rid
     else ret tt) ;;;
    record_ids rs'
  end.

(** The body of the [getResources] property, given the computation that
    reads [self.accessToken]. *)
Definition getResources_with (accessToken : M (gmap string value * world W) value)
  : M (gmap string value * world W) value :=
  appId <- get_attr "_appId" ;;
  token <- accessToken ;;
  resp <- io (postRequest _RESOURCE_REQ (Some [("applicationId", appId); ("token", token)]) None 10) ;;
  rs <- lift (py_iter resp) ;;
  record_ids rs ;;;
  ret resp.

(** Storing the fields of an authentication response, in source order. *)
Definition store_session (resp : value) : M (gmap string value * world W) unit :=
  v <- lift (py_getitem resp (KStr "token")) ;; set_attr "_accessToken" v ;;;
  v <- lift (py_getitem resp (KStr "accountId")) ;; set_attr "accountId" v ;;;
  v <- lift (py_getitem resp (KStr "exp")) ;; set_attr "expiration" v ;;;
  v <- lift (py_getitem resp (KStr "functionalGroupAccounts")) ;; set_attr "functionalGroupAccounts" v ;;;
  v <- lift (py_getitem resp (KStr "userGroups")) ;; set_attr "userGroups" v.

(** The body of the [accessToken] property, given the computation that
    reads [self.getResources]. *)
Definition accessToken_with (getResources : M (gmap string value * world W) value)
  : M (gmap string value * world W) value :=
  expiration <- get_attr "expiration" ;;
  now <- io clock ;;
  expired <- lift (py_le expiration (VFloat now)) ;;
  (if expired : bool then
     appId <- get_attr "_appId" ;;
     username <- get_attr "_username" ;;
     password <- get_attr "_password" ;;
     resp <- io (postRequest _AUTH_REQ (Some [("applicationId", appId)])
                   (Some [("username", username); ("password", password)]) 10) ;;
     store_session resp ;;;
     getResources ;;;
     ret tt
   else ret tt) ;;;
  get_attr "_accessToken".

(** The two properties call each other; the interpreter bounds the nesting
    and raises [RecursionError] beyond it: [fuel] is the number of nested
    [accessToken] activations still allowed. *)
Fixpoint accessToken (fuel : nat) : M (gmap string value * world W) value :=
  match fuel with
  | O => raise RecursionError
  | S fuel' => accessToken_with (getResources_with (accessToken fuel'))
  end.

Definition getResources (fuel : nat) : M (gmap string value * world W) value :=
  getResources_with (accessToken fuel).

(** [__init__], run on the fresh instance. *)
Definition __init__ (fuel : nat) (appId username password : value)
  : M (gmap string value * world W) unit :=
  resp <- io (postRequest _AUTH_REQ (Some [("applicationId", appId)])
                (Some [("username", username); ("password", password)]) 10) ;;
  (if py_truthy resp then ret tt
   else raise (AuthFailure "Authentication request rejected")) ;;;
  set_attr "_appId" appId ;;;
  set_attr "_username" username ;;;
  set_attr "_password" password ;;;
  store_session resp ;;;
  getResources fuel ;;;
  ret tt.

(** [Glow(appId, username, password)]: the caller gets the instance only
    when [__init__] returns. *)
Definition Glow (fuel : nat) (appId username password : value)
  : M (world W) (gmap string value) :=
  fun w => match __init__ fuel appId username password (∅, w) with
           | (Ok _, (self, w')) => (Ok self, w')
           | (Raise e, (_, w')) => (Raise e, w')
           end.

Definition resource_head (fuel : nat)
  : M (gmap string value * world W) (list (string * value)) :=
  appId <- get_attr "_appId" ;;
  token <- accessToken fuel ;;
  ret [("applicationId", appId); ("token", token)].

Definition getReading (fuel : nat) (id : value) (dfrom dto period : string)
    (offset : Z) (func : string) : M (gmap string value * world W) value :=
  head <- resource_head fuel ;;
  url <- lift (str_add (_RESOURCE_REQ +:+ "/") id) ;;
  io (postRequest
        (url +:+ "/readings?" +:+
         urlencode [("from", dfrom); ("to", dto); ("period", period);
                    ("offset", pretty offset); ("function", func)])
        (Some head) None 10).

Definition getCurResource (fuel : nat) (id : value) : M (gmap string value * world W) value :=
  head <- resource_head fuel ;;
  url <- lift (str_add (_RESOURCE_REQ +:+ "/") id) ;;
  io (postRequest (url +:+ "/current") (Some head) None 10).

(** The tariff and meter-read properties fetch a sub-resource of the stored
    identifier: the head is built first, the identifier read next. *)
Definition fetch_sub (fuel : nat) (attr sub : string) : M (gmap string value * world W) value :=
  head <- resource_head fuel ;;
  id <- get_attr attr ;;
  url <- lift (str_add (_RESOURCE_REQ +:+ "/") id) ;;
  io (postRequest (url +:+ sub) (Some head) None 10).

Definition getElecTariff (fuel : nat) := fetch_sub fuel "elecConsumptionId" "/tariff".
Definition getGasTariff (fuel : nat) := fetch_sub fuel "gasConsumptionId" "/tariff".
Definition getElecMeterRead (fuel : nat) := fetch_sub fuel "elecConsumptionId" "/meterread".

(** [x[k1][k2]...] *)
Fixpoint getpath (x : value) (ks : list key) : result value :=
  match ks with
  | [] => Ok x
  | k :: ks' => rbind (py_getitem x k) (fun y => getpath y ks')
  end.

(** The part shared by [getElecCurrent] and [getGasCurrent]: rate, standing
    charge and cost are added to the reading [_return]. *)
Definition add_cost (_return tariff_resp : value) : result value :=
  rbind (getpath tariff_resp [KStr "data"; KInt 0; KStr "plan"; KInt 0; KStr "planDetail"]) (fun _tariff =>
  rbind (getpath _tariff [KInt 0; KStr "rate"]) (fun rate =>
  rbind (py_setitem _return (KStr "rate") rate) (fun _return =>
  rbind (getpath _tariff [KInt 1; KStr "standing"]) (fun standing =>
  rbind (py_setitem _return (KStr "standing") standing) (fun _return =>
  rbind (py_getitem _return (KStr "rate")) (fun rate =>
  rbind (getpath _return [KStr "data"; KInt 0; KInt 1]) (fun ammount =>
  rbind (py_getitem _return (KStr "units")) (fun unit =>
  py_setitem _return (KStr "cost") (toCost rate ammount unit))))))))).

Definition getElecCurrent (fuel : nat) : M (gmap string value * world W) value :=
  id <- get_attr "elecConsumptionId" ;;
  _return <- getCurResource fuel id ;;
  tariff <- getElecTariff fuel ;;
  lift (add_cost _return tariff).

(** [_return['data'][0] = point]: the list under ['data'] is changed in
    place, so the reading holds the changed list. *)
Definition set_first_point (_return point : value) : result value :=
  rbind (py_getitem _return (KStr "data")) (fun data =>
  rbind (py_setitem data (KInt 0) point) (fun data =>
  py_setitem _return (KStr "data") data)).

Definition getGasCurrent (fuel : nat) : M (gmap string value * world W) value :=
  _today <- io today ;;
  _todayM30M <- lift (minus_30_minutes _today) ;;
  let _dtTo := strftime_minute _today in
  let _dtFrom := strftime_minute _todayM30M in
  id <- get_attr "gasConsumptionId" ;;
  _gu <- getReading fuel id _dtFrom _dtTo "PT30M" 0 "sum" ;;
  id <- get_attr "gasConsumptionId" ;;
  _return <- getCurResource fuel id ;;
  point <- lift (getpath _gu [KStr "data"; KInt 0]) ;;
  _return <- lift (set_first_point _return point) ;;
  tariff <- getGasTariff fuel ;;
  lift (add_cost _return tariff).

(** [_return['data'][0][i] = v], through the two nested lists. *)
Definition set_first_point_field (_return : value) (i : Z) (v : value) : result value :=
  rbind (getpath _return [KStr "data"; KInt 0]) (fun point =>
  rbind (py_setitem point (KInt i) v) (fun point =>
  set_first_point _return point)).

Definition getGasMeterRead (fuel : nat) : M (gmap string value * world W) value :=
  head <- resource_head fuel ;;
  id <- get_attr "gasConsumptionId" ;;
  url <- lift (str_add (_RESOURCE_REQ +:+ "/") id) ;;
  _return <- io (postRequest (url +:+ "/meterread") (Some head) None 10) ;;
  id <- get_attr "gasConsumptionId" ;;
  _gComp <- getCurResource fuel id ;;
  v <- lift (getpath _gComp [KStr "data"; KInt 0; KInt 0]) ;;
  _return <- lift (set_first_point_field _return 0 v) ;;
  v <- lift (rbind (getpath _gComp [KStr "data"; KInt 0; KInt 1]) (fun x => py_mul x (VInt 1000))) ;;
  lift (set_first_point_field _return 1 v).

End Client.

(** ** Vocabulary of the specification *)

(** The requests the class issues. *)
Definition auth_request (appId username password : value) : request :=
  mkrequest _AUTH_REQ (add_headers (Some [("applicationId", appId)]))
    (Some [("username", username); ("password", password)]) 10.

Definition head_request (url : string) (head : list (string * value)) : request :=
  mkrequest url (add_headers (Some head)) None 10.

Definition resource_request (url : string) (appId token : value) : request :=
  mkrequest url (add_headers (Some [("applicationId", appId); ("token", token)])) None 10.

(** The address of a sub-resource, and of the readings of a window. *)
Definition resource_url (id sub : string) : string :=
  ((_RESOURCE_REQ +:+ "/") +:+ id) +:+ sub.

Definition readings_url (id dfrom dto period : string) (offset : Z) (func : string) : string :=
  ((_RESOURCE_REQ +:+ "/") +:+ id) +:+
  ("/readings?" +:+
   urlencode [("from", dfrom); ("to", dto); ("period", period);
              ("offset", pretty offset); ("function", func)]).

(** The instance holds these credentials, token and expiry. *)
Definition session_of (self : gmap string value) (appId token exp : value) : Prop :=
  self !! "_appId" = Some appId /\
  self !! "_accessToken" = Some token /\
  self !! "expiration" = Some exp.

(** A resource descriptor: a dictionary with a classifier and a resource
    identifier. *)
Definition is_descriptor (d : value) : bool :=
  match d with
  | VDict kv =>
    match dict_get kv (KStr "classifier"), dict_get kv (KStr "resourceId") with
    | Some _, Some _ => true
    | _, _ => false
    end
  | _ => false
  end.

(** The item has a classifier, and it is exactly [c]. *)
Definition classifier_is (c : string) (d : value) : bool :=
  match py_getitem d (KStr "classifier") with
  | Ok v => py_eq_str v c
  | Raise _ => false
  end.

(** The resource identifier of the last descriptor whose classifier is
    exactly [c]. *)
Definition last_id (c : string) (ds : list value) : option value :=
  match last (List.filter (classifier_is c) ds) with
  | Some d =>
    match py_getitem d (KStr "resourceId") with
    | Ok r => Some r
    | Raise _ => None
    end
  | None => None
  end.

(** What processing the descriptor list [ds] does to an instance: each of
    the two identifiers becomes that of the last descriptor with its
    classifier, or stays as it was when there is none; nothing else changes. *)
Definition records_ids (ds : list value) (before after : gmap string value) : Prop :=
  after !! "elecConsumptionId"
    = match last_id "electricity.consumption" ds with
      | Some r => Some r
      | None => before !! "elecConsumptionId"
      end /\
  after !! "gasConsumptionId"
    = match last_id "gas.consumption" ds with
      | Some r => Some r
      | None => before !! "gasConsumptionId"
      end /\
  forall name, name <> "elecConsumptionId" -> name <> "gasConsumptionId" ->
               after !! name = before !! name.




Section Vocabulary.
Context {W : Type} `{Environment W}.

(** Read in [e], the clock is before the expiry [exp]; the reading leaves
    the environment [e']. *)
Definition fresh (exp : value) (e e' : W) : Prop :=
  exists t, time_time e = (t, e') /\ py_lt (VFloat t) exp = Ok true.

(** In [e] the server answers the request [r] with the outcome [o], which
    is read as the JSON document [v]; the exchange leaves [e']. *)
Definition answers (e : W) (r : request) (o : outcome) (v : value) (e' : W) : Prop :=
  urlopen r e = (o, e') /\ json_response o = Some v.

(** The public operations of an instance. *)
Inductive call :=
| Call_accessToken
| Call_getResources
| Call_getReading (id : value) (dfrom dto period : string) (offset : Z) (func : string)
| Call_getCurResource (id : value)
| Call_getElecCurrent
| Call_getGasCurrent
| Call_getElecTariff
| Call_getGasTariff
| Call_getElecMeterRead
| Call_getGasMeterRead.

Definition run (fuel : nat) (c : call) : M (gmap string value * world W) value :=
  match c with
  | Call_accessToken => accessToken fuel
  | Call_getResources => getResources fuel
  | Call_getReading id dfrom dto period offset func =>
    getReading fuel id dfrom dto period offset func
  | Call_getCurResource id => getCurResource fuel id
  | Call_getElecCurrent => getElecCurrent fuel
  | Call_getGasCurrent => getGasCurrent fuel
  | Call_getElecTariff => getElecTariff fuel
  | Call_getGasTariff => getGasTariff fuel
  | Call_getElecMeterRead => getElecMeterRead fuel
  | Call_getGasMeterRead => getGasMeterRead fuel
  end.






End Vocabulary.

(** The cost formula of the specification,
    [(unit == "W" ? amount/1000 : amount) * rate], evaluated as Python
    evaluates it; it has no value when the arithmetic raises. *)
Definition cost_formula (rate amount unit : value) : result value :=
  if py_eq_str unit "W"
  then rbind (py_truediv amount (VInt 1000)) (fun kw => py_mul kw rate)
  else py_mul amount rate.

(** ** A scripted environment

    The server answers the requests in the order of a script, whatever they
    ask; the clock and the calendar stand still.  Where a response is read as
    JSON only its reading matters, and the script leaves the bytes out. *)

Record mock := mkmock {
  mock_responses : list outcome;
  mock_clock : float;
  mock_today : datetime }.

#[export] Instance mock_env : Environment mock := {
  urlopen _ m :=
    match mock_responses m with
    | o :: os => (o, mkmock os (mock_clock m) (mock_today m))
    | [] => (Failed (URLError "unreachable"), m)
    end;
  time_time m := (mock_clock m, m);
  datetime_today m := (mock_today m, m) }.

Definition json_reply (v : value) : outcome :=
  Responded (Some "application/json; charset=utf-8") (mkbody [] (Some v)).

Definition mock_world (script : list outcome) (clock : float) : world mock :=
  mkworld (mkmock script clock (mkdatetime 2024 3 1 0 10 5 7)) [] [].

Definition auth_reply (token : string) (exp : Z) : outcome :=
  json_reply (VDict [(KStr "token", VStr token); (KStr "accountId", VStr "acc");
                     (KStr "exp", VInt exp);
                     (KStr "functionalGroupAccounts", VList []);
                     (KStr "userGroups", VList [])]).

Definition descriptor (classifier resourceId : string) : value :=
  VDict [(KStr "classifier", VStr classifier); (KStr "resourceId", VStr resourceId)].

(** The listing of the specification's example. *)
Definition example_descriptors : list value :=
  [descriptor "electricity.consumption" "E1"; descriptor "gas.consumption" "G1";
   descriptor "electricity.consumption.cost" "E2"].

(** A session as [__init__] leaves it, without resource identifiers. *)
Definition mock_session (token : string) (exp : Z) : gmap string value :=
  <["userGroups" := VList []]> (<["functionalGroupAccounts" := VList []]>
  (<["expiration" := VInt exp]> (<["accountId" := VStr "acc"]>
  (<["_accessToken" := VStr token]> (<["_password" := VStr "secret"]>
  (<["_username" := VStr "user"]> (<["_appId" := VStr "app"]> ∅))))))).

(** The session with the two resource identifiers of the example. *)
Definition mock_session_ids (token : string) (exp : Z) : gmap string value :=
  <["gasConsumptionId" := VStr "G1"]> (<["elecConsumptionId" := VStr "E1"]>
  (mock_session token exp)).

(** A reading with one data point. *)
Definition reading_reply (timestamp amount : Z) (units : string) : outcome :=
  json_reply (VDict [(KStr "data", VList [VList [VInt timestamp; VInt amount]]);
                     (KStr "units", VStr units)]).

Definition tariff_reply (rate standing : float) : outcome :=
  json_reply
    (VDict [(KStr "data",
             VList [VDict [(KStr "plan",
                            VList [VDict [(KStr "planDetail",
                                           VList [VDict [(KStr "rate", VFloat rate)];
                                                  VDict [(KStr "standing", VFloat standing)]])]])]])]).

(** ** Credentials of the module

    The three defaults of [Glow()] are resolved when the module is loaded:
    the hard-coded dictionary [cred], updated from the credentials file if
    there is one (its keys upper-cased), and overridden by the environment
    variables.  The file is taken to be readable when it exists. *)

Definition ascii_upper (c : ascii) : ascii :=
  let n := N_of_ascii c in
  if ((97 <=? n) && (n <=? 122))%N then ascii_of_N (n - 32) else c.

(** [s.upper()] on ASCII text, the text the properties below are about:
    the letters [a] to [z] change, nothing else does. *)
Fixpoint str_upper (s : string) : string :=
  match s with
  | EmptyString => EmptyString
  | String c s' => String (ascii_upper c) (str_upper s')
  end.

Definition key_upper (k : key) : result key :=
  match k with
  | KStr s => Ok (KStr (str_upper s))
  | KInt _ => Raise (AttributeError "upper")
  end.

(** [{k.upper(): v for k, v in items}], built item by item onto [acc]. *)
Fixpoint upper_keys (items acc : list (key * value)) : result (list (key * value)) :=
  match items with
  | [] => Ok acc
  | (k, v) :: rest => rbind (key_upper k) (fun k' => upper_keys rest (dict_set acc k' v))
  end.

(** [d.update(upd)] *)
Definition dict_update (d upd : list (key * value)) : list (key * value) :=
  fold_left (fun acc kv => dict_set acc (fst kv) (snd kv)) upd d.

Definition cred : list (key * value) :=
  [(KStr "APP_ID", VStr ""); (KStr "USERNAME", VStr ""); (KStr "PASSWORD", VStr "")].

(** The credentials file: absent, or present with what [json.loads] makes
    of its text. *)
Inductive cred_file :=
| NoFile
| FileContent (parsed : option value).

(** [cred] after the optional update from the file. *)
Definition load_credentials (file : cred_file) : result (list (key * value)) :=
  match file with
  | NoFile => Ok cred
  | FileContent None => Raise ValueError
  | FileContent (Some (VDict items)) =>
    rbind (upper_keys items []) (fun upd => Ok (dict_update cred upd))
  | FileContent (Some _) => Raise (AttributeError "items")
  end.

(** [getenv(key, default[key])]: the default is looked up first. *)
Definition getParameter (environ : gmap string string) (k : string) (default : value)
  : result value :=
  rbind (py_getitem default (KStr k)) (fun d =>
  Ok (match environ !! k with
      | Some v => VStr v
      | None => d
      end)).

(** [_APP_ID], [_USERNAME] and [_PASSWORD]. *)
Definition module_credentials (file : cred_file) (environ : gmap string string)
  : result (value * value * value) :=
  rbind (load_credentials file) (fun c =>
  rbind (getParameter environ "APP_ID" (VDict c)) (fun _APP_ID =>
  rbind (getParameter environ "USERNAME" (VDict c)) (fun _USERNAME =>
  rbind (getParameter environ "PASSWORD" (VDict c)) (fun _PASSWORD =>
  Ok (_APP_ID, _USERNAME, _PASSWORD))))).

(** ** More vocabulary *)

(** The value the file gives a parameter: that of its last key which is the
    parameter's name once upper-cased. *)
Definition file_entry (name : string) (items : list (key * value)) : option value :=
  match last (List.filter
                (fun kv => match fst kv with
                           | KStr s => String.eqb (str_upper s) name
                           | KInt _ => false
                           end) items) with
  | Some kv => Some (snd kv)
  | None => None
  end.

(** A parameter as documented: the environment variable if it is set, else
    the file's entry if it has one, else the empty string. *)
Definition resolved (environ : gmap string string) (items : list (key * value))
    (name : string) : value :=
  match environ !! name with
  | Some v => VStr v
  | None =>
    match file_entry name items with
    | Some v => v
    | None => VStr ""
    end
  end.

Fixpoint is_ascii (s : string) : bool :=
  match s with
  | EmptyString => true
  | String c s' => (N_of_ascii c <? 128)%N && is_ascii s'
  end.

(** Every key is a string of ASCII characters. *)
Definition ascii_keys (items : list (key * value)) : bool :=
  forallb (fun kv => match fst kv with KStr s => is_ascii s | KInt _ => false end) items.

(** No key occurs twice. *)
Fixpoint uniq_keys (d : list (key * value)) : Prop :=
  match d with
  | [] => True
  | (k, _) :: d' => dict_get d' k = None /\ uniq_keys d'
  end.

(** The attributes an operation on a constructed instance may assign. *)
Definition session_attrs : list string :=
  ["_accessToken"; "accountId"; "expiration"; "functionalGroupAccounts"; "userGroups";
   "elecConsumptionId"; "gasConsumptionId"].

(** The requests of the client: the content type is announced, the timeout
    is 10, and the request either goes to the authentication endpoint or
    goes below the resource endpoint and carries no data. *)
Definition api_request (r : request) : Prop :=
  req_timeout r = 10 /\
  In ("Content-Type", VStr "application/json") (req_headers r) /\
  (req_url r = _AUTH_REQ \/
   (String.prefix _RESOURCE_REQ (req_url r) = true /\ req_data r = None)).

Fixpoint count_char (c : ascii) (s : string) : nat :=
  match s with
  | EmptyString => O
  | String c' s' => ((if Ascii.eqb c' c then 1 else 0) + count_char c s')%nat
  end.

Section Relations.
Context {W : Type}.

(** A computation all of whose runs are related by [R]. *)
Definition preserves (R : gmap string value * world W -> gmap string value * world W -> Prop)
    {A} (m : M (gmap string value * world W) A) : Prop :=
  forall s r s', m s = (r, s') -> R s s'.

(** Only the attributes of [session_attrs] differ. *)
Definition same_outside_session (s s' : gmap string value * world W) : Prop :=
  forall name, ~ In name session_attrs -> fst s' !! name = fst s !! name.

(** The trace grew by requests of the client only. *)
Definition issued_api_requests (s s' : gmap string value * world W) : Prop :=
  exists l, trace (snd s') = (l ++ trace (snd s))%list /\
            Forall (fun ro => api_request (fst ro)) l.

End Relations.

(** An environment that answers every authentication the same way, every
    other request with an empty listing, and whose clock stands still. *)
Definition fixed_env (auth : outcome) (clock : float) : Environment unit := {|
  urlopen r _ := (if String.eqb (req_url r) _AUTH_REQ then auth else json_reply (VList []), tt);
  time_time _ := (clock, tt);
  datetime_today _ := (mkdatetime 2024 3 1 0 10 5 7, tt) |}.

(** * Properties *)

(** ** [toCost] *)

Lemma int_to_float_1000 : int_to_float 1000 = Ok 1000%float.
Proof. vm_compute. reflexivity. Qed.

Lemma num_mul_raises (x y : num) (e : exn) :
  num_mul x y = Raise e -> e = OverflowError.
Proof.
  unfold num_mul, int_to_float.
  destruct x as [a|f], y as [b|g]; simpl; try discriminate;
    repeat match goal with
           | |- context [if ?c then _ else _] => destruct c; simpl
           end; congruence.
Qed.

Lemma py_mul_numeric_raises (a b : value) (e : exn) :
  as_num a <> None -> as_num b <> None -> py_mul a b = Raise e -> e = OverflowError.
Proof.
  unfold py_mul. destruct (as_num a) as [x|]; [|congruence].
  destruct (as_num b) as [y|]; [|congruence].
  intros _ _. destruct x, y; apply num_mul_raises.
Qed.

Lemma py_truediv_1000 (a : value) :
  is_numeric a = true ->
  py_truediv a (VInt 1000) = Raise OverflowError \/
  exists f, py_truediv a (VInt 1000) = Ok (VFloat f).
Proof.
  destruct a; try discriminate; intros _; unfold py_truediv; cbn [as_num num_truediv].
  - unfold int_truediv. change (1000 =? 0) with false. cbv iota.
    destruct (i =? 0); [right; eexists; reflexivity|].
    match goal with |- context [is_infinity ?x] => destruct (is_infinity x) end;
      [left; reflexivity | right; eexists; reflexivity].
  - rewrite int_to_float_1000. right. eexists. reflexivity.
Qed.

Lemma cost_formula_raises (rate amount unit : value) (e : exn) :
  is_numeric rate = true -> is_numeric amount = true ->
  cost_formula rate amount unit = Raise e -> e = OverflowError.
Proof.
  intros Hr Ha. unfold cost_formula.
  assert (Hr' : as_num rate <> None) by (destruct rate; simpl in *; congruence).
  assert (Ha' : as_num amount <> None) by (destruct amount; simpl in *; congruence).
  destruct (py_eq_str unit "W").
  - destruct (py_truediv_1000 amount Ha) as [-> | [f ->]]; simpl.
    + congruence.
    + apply py_mul_numeric_raises; simpl; congruence.
  - apply py_mul_numeric_raises; assumption.
Qed.

Lemma toCost_unfold (rate amount unit : value) :
  toCost rate amount unit =
  match cost_formula rate amount unit with
  | Ok v => v
  | Raise _ => VInt 0
  end.
Proof.
  unfold toCost, cost_formula. destruct (py_eq_str unit "W"); reflexivity.
Qed.

(** C4, as the code has it: for a numeric rate and a numeric amount [toCost]
    is [(amount/1000)*rate] when the unit is exactly ["W"] and [amount*rate]
    for every other unit, whenever that arithmetic has a value; the only way
    it has none is an integer too large for a float, and then [toCost] is 0.
    In particular [toCost(0.15, 2000, "W") = 0.3] and
    [toCost(0.15, 2, "kWh") = 0.3]. *)
Theorem toCost_formula :
  (forall rate amount unit : value,
     is_numeric rate = true -> is_numeric amount = true ->
     (forall v, cost_formula rate amount unit = Ok v -> toCost rate amount unit = v) /\
     (forall e, cost_formula rate amount unit = Raise e ->
                e = OverflowError /\ toCost rate amount unit = VInt 0)) /\
  toCost (VFloat 0.15) (VInt 2000) (VStr "W") = VFloat 0.3 /\
  toCost (VFloat 0.15) (VInt 2) (VStr "kWh") = VFloat 0.3.
Proof.
  split; [|split; vm_compute; reflexivity].
  intros rate amount unit Hr Ha. rewrite toCost_unfold. split.
  - intros v ->. reflexivity.
  - intros e He. split; [exact (cost_formula_raises rate amount unit e Hr Ha He)|].
    rewrite He. reflexivity.
Qed.

Lemma toCost_formula_witness :
  is_numeric (VFloat 2.5) = true /\ is_numeric (VInt 4000) = true /\
  toCost (VFloat 2.5) (VInt 4000) (VStr "W") = VFloat 10.
Proof.
  split; [reflexivity|]. split; [reflexivity|].
  apply (proj1 (proj1 toCost_formula (VFloat 2.5) (VInt 4000) (VStr "W") eq_refl eq_refl)).
  vm_compute. reflexivity.
Defined.

(** C4 as stated fails: with the integer amount [10^400] the division
    [amount/1000] raises [OverflowError], the formula has no value, and
    [toCost] returns 0. *)
Lemma toCost_formula_overflow :
  is_numeric (VInt 1) = true /\ is_numeric (VInt (10 ^ 400)) = true /\
  cost_formula (VInt 1) (VInt (10 ^ 400)) (VStr "W") = Raise OverflowError /\
  toCost (VInt 1) (VInt (10 ^ 400)) (VStr "W") = VInt 0 /\
  ~ (forall rate amount unit : value,
       is_numeric rate = true -> is_numeric amount = true ->
       cost_formula rate amount unit = Ok (toCost rate amount unit)).
Proof.
  assert (E : cost_formula (VInt 1) (VInt (10 ^ 400)) (VStr "W") = Raise OverflowError)
    by (vm_compute; reflexivity).
  split; [reflexivity|]. split; [reflexivity|]. split; [exact E|]. split.
  - rewrite toCost_unfold, E. reflexivity.
  - intros C. specialize (C (VInt 1) (VInt (10 ^ 400)) (VStr "W") eq_refl eq_refl).
    rewrite E in C. discriminate.
Qed.




(** ** The transport layer *)

Section Transport.
Context {W : Type} `{Environment W}.

Lemma postRequest_json url head body timeout (w : world W) data o v e' :
  encode_body body = Ok data ->
  urlopen (mkrequest url (add_headers head) data timeout) (env w) = (o, e') ->
  json_response o = Some v ->
  postRequest url head body timeout w =
  (Ok v, mkworld e' ((mkrequest url (add_headers head) data timeout, o) :: trace w) (logged w)).
Proof.
  intros Henc Hurl Hjson.
  unfold postRequest, bind, lift, do_urlopen. rewrite Henc, Hurl.
  destruct o as [[ct|] b| |]; simpl in Hjson; try discriminate.
  destruct (str_contains "application/json" ct); [|discriminate].
  rewrite Hjson. reflexivity.
Qed.

(** C9, as the code has it: a non-2xx response, which [urlopen] raises as
    [HTTPError], is caught by [postRequest]: the status code and the reason
    are logged, [None] is returned and no exception leaves the layer.  Every
    other exception of [urlopen] (a DNS failure, a timeout) is not caught:
    [postRequest] raises it. *)
Theorem postRequest_catches_http_error
    url head body timeout (w : world W) data (e' : W) :
  encode_body body = Ok data ->
  (forall code reason,
     urlopen (mkrequest url (add_headers head) data timeout) (env w)
       = (HTTPError code reason, e') ->
     postRequest url head body timeout w =
     (Ok VNone,
      mkworld e'
        ((mkrequest url (add_headers head) data timeout, HTTPError code reason) :: trace w)
        (("code=" +:+ pretty code +:+ ", reason=" +:+ reason) :: logged w))) /\
  (forall e,
     urlopen (mkrequest url (add_headers head) data timeout) (env w) = (Failed e, e') ->
     postRequest url head body timeout w =
     (Raise e,
      mkworld e' ((mkrequest url (add_headers head) data timeout, Failed e) :: trace w)
        (logged w))).
Proof.
  intros Henc. split.
  - intros code reason Hurl.
    unfold postRequest, bind, lift, do_urlopen. rewrite Henc, Hurl. reflexivity.
  - intros e Hurl.
    unfold postRequest, bind, lift, do_urlopen. rewrite Henc, Hurl. reflexivity.
Qed.

End Transport.

Lemma postRequest_catches_http_error_witness :
  postRequest _AUTH_REQ (Some [("applicationId", VStr "app")])
    (Some [("username", VStr "user"); ("password", VStr "wrong")]) 10
    (mock_world [HTTPError 401 "Unauthorized"] 0) =
  (Ok VNone,
   mkworld (mkmock [] 0 (mkdatetime 2024 3 1 0 10 5 7))
     [(mkrequest _AUTH_REQ
         [("Content-Type", VStr "application/json"); ("applicationId", VStr "app")]
         (Some [("username", VStr "user"); ("password", VStr "wrong")]) 10,
       HTTPError 401 "Unauthorized")]
     ["code=401, reason=Unauthorized"]).
Proof.
  apply (proj1 (postRequest_catches_http_error _AUTH_REQ
                  (Some [("applicationId", VStr "app")])
                  (Some [("username", VStr "user"); ("password", VStr "wrong")]) 10
                  (mock_world [HTTPError 401 "Unauthorized"] 0)
                  (Some [("username", VStr "user"); ("password", VStr "wrong")])
                  (mkmock [] 0 (mkdatetime 2024 3 1 0 10 5 7)) eq_refl) 401 "Unauthorized").
  reflexivity.
Defined.

(** C9 as stated fails: when the host name does not resolve, [urlopen]
    raises [URLError], and the exception leaves [postRequest]. *)
Lemma postRequest_dns_failure_escapes :
  fst (postRequest _AUTH_REQ (Some [("applicationId", VStr "app")])
         (Some [("username", VStr "user"); ("password", VStr "secret")]) 10
         (mock_world [Failed (URLError "Name or service not known")] 0))
  = Raise (URLError "Name or service not known").
Proof. reflexivity. Qed.

(** ** Running a method step by step *)

Section Session.
Context {W : Type} `{Environment W}.

Lemma bind_ok {S A B} (m : M S A) (k : A -> M S B) s a s' :
  m s = (Ok a, s') -> bind m k s = k a s'.
Proof. intros E. unfold bind. rewrite E. reflexivity. Qed.

Lemma bind_raise {S A B} (m : M S A) (k : A -> M S B) s e s' :
  m s = (Raise e, s') -> bind m k s = (Raise e, s').
Proof. intros E. unfold bind. rewrite E. reflexivity. Qed.

Lemma get_attr_some name (self : gmap string value) (w : world W) v :
  self !! name = Some v -> get_attr name (self, w) = (Ok v, (self, w)).
Proof. intros E. unfold get_attr. simpl. rewrite E. reflexivity. Qed.


Lemma io_run {A} (m : M (world W) A) (self : gmap string value) w r w' :
  m w = (r, w') -> io m (self, w) = (r, (self, w')).
Proof. intros E. unfold io. simpl. rewrite E. reflexivity. Qed.

Lemma clock_run (w : world W) t e' :
  time_time (env w) = (t, e') -> clock w = (Ok t, mkworld e' (trace w) (logged w)).
Proof. intros E. unfold clock. rewrite E. reflexivity. Qed.

(** ** Construction *)

(** C3: when the transport returns an absent or falsy response to the
    authentication request, [__init__] raises [AuthFailure] before any
    assignment: the attribute dictionary is as it was (empty, for the fresh
    instance), and the constructor yields no instance. *)
Theorem init_rejected_raises_AuthFailure
    fuel appId username password (self : gmap string value) (w w' : world W) resp :
  postRequest _AUTH_REQ (Some [("applicationId", appId)])
    (Some [("username", username); ("password", password)]) 10 w = (Ok resp, w') ->
  py_truthy resp = false ->
  __init__ fuel appId username password (self, w)
    = (Raise (AuthFailure "Authentication request rejected"), (self, w')) /\
  Glow fuel appId username password w
    = (Raise (AuthFailure "Authentication request rejected"), w').
Proof.
  intros Hpost Hfalsy.
  assert (E : forall o : gmap string value,
             __init__ fuel appId username password (o, w)
             = (Raise (AuthFailure "Authentication request rejected"), (o, w'))).
  { intros o. unfold __init__.
    rewrite (bind_ok _ _ _ _ _ (io_run _ o _ _ _ Hpost)).
    rewrite Hfalsy. reflexivity. }
  split; [apply E|]. unfold Glow. rewrite E. reflexivity.
Qed.

End Session.

Lemma init_rejected_raises_AuthFailure_witness :
  Glow 3 (VStr "app") (VStr "user") (VStr "wrong")
    (mock_world [HTTPError 401 "Unauthorized"] 0)
  = (Raise (AuthFailure "Authentication request rejected"),
     mkworld (mkmock [] 0 (mkdatetime 2024 3 1 0 10 5 7))
       [(mkrequest _AUTH_REQ
           [("Content-Type", VStr "application/json"); ("applicationId", VStr "app")]
           (Some [("username", VStr "user"); ("password", VStr "wrong")]) 10,
         HTTPError 401 "Unauthorized")]
       ["code=401, reason=Unauthorized"]).
Proof.
  refine (proj2 (init_rejected_raises_AuthFailure 3 (VStr "app") (VStr "user") (VStr "wrong")
                   ∅ (mock_world [HTTPError 401 "Unauthorized"] 0) _ VNone _ _));
    vm_compute; reflexivity.
Defined.

(** ** Ordering *)

Lemma xcompare_antisym (x y : xnum) :
  xcompare y x = option_map CompOpp (xcompare x y).
Proof.
  destruct x as [|a|m1 e1], y as [|b|m2 e2]; simpl; try reflexivity.
  - destruct a, b; reflexivity.
  - destruct a; reflexivity.
  - destruct b; reflexivity.
  - rewrite (Z.min_comm e2 e1). f_equal. apply Z.compare_antisym.
Qed.

Lemma xlt_not_xle (x y : xnum) : xlt x y = true -> xle y x = false.
Proof.
  unfold xlt, xle. rewrite (xcompare_antisym x y).
  destruct (xcompare x y) as [[]|]; simpl; congruence.
Qed.

Lemma py_lt_not_le (a b : value) : py_lt a b = Ok true -> py_le b a = Ok false.
Proof.
  unfold py_lt, py_le. destruct (as_num a) as [x|]; [|discriminate].
  destruct (as_num b) as [y|]; [|discriminate].
  intros E. injection E as E. rewrite (xlt_not_xle _ _ E). reflexivity.
Qed.

Lemma Zmul_compare_pos (n m p : Z) : 0 < p -> (n * p ?= m * p) = (n ?= m).
Proof.
  intros Hp. destruct (Z.compare_spec n m) as [->|Hlt|Hgt].
  - apply Z.compare_refl.
  - apply Z.compare_lt_iff. nia.
  - apply Z.compare_gt_iff. nia.
Qed.

(** Comparing two finite numbers at any exponent below both. *)
Lemma xfin_compare_at (m1 e1 m2 e2 e : Z) :
  e <= e1 -> e <= e2 ->
  (m1 * 2 ^ (e1 - Z.min e1 e2) ?= m2 * 2 ^ (e2 - Z.min e1 e2))
  = (m1 * 2 ^ (e1 - e) ?= m2 * 2 ^ (e2 - e)).
Proof.
  intros H1 H2.
  assert (Hd : 0 <= Z.min e1 e2 - e) by lia.
  replace (e1 - e) with ((e1 - Z.min e1 e2) + (Z.min e1 e2 - e)) by lia.
  replace (e2 - e) with ((e2 - Z.min e1 e2) + (Z.min e1 e2 - e)) by lia.
  rewrite !Z.pow_add_r by lia. rewrite !Z.mul_assoc.
  symmetry. apply Zmul_compare_pos. apply Z.pow_pos_nonneg; lia.
Qed.

Lemma xle_xlt_trans (x y z : xnum) :
  xle x y = true -> xlt y z = true -> xlt x z = true.
Proof.
  unfold xle, xlt.
  destruct x as [|a|m1 e1], y as [|b|m2 e2], z as [|c|m3 e3]; simpl;
    try discriminate; try (destruct a); try (destruct b); try (destruct c);
    try discriminate; try reflexivity.
  set (e := Z.min e1 (Z.min e2 e3)).
  rewrite (xfin_compare_at m1 e1 m2 e2 e), (xfin_compare_at m2 e2 m3 e3 e),
    (xfin_compare_at m1 e1 m3 e3 e) by (unfold e; lia).
  generalize (m1 * 2 ^ (e1 - e)) (m2 * 2 ^ (e2 - e)) (m3 * 2 ^ (e3 - e)).
  intros p q r.
  destruct (Z.compare_spec p q), (Z.compare_spec q r), (Z.compare_spec p r);
    intros; try discriminate; try reflexivity; lia.
Qed.

Lemma xle_trans (x y z : xnum) :
  xle x y = true -> xle y z = true -> xle x z = true.
Proof.
  unfold xle.
  destruct x as [|a|m1 e1], y as [|b|m2 e2], z as [|c|m3 e3]; simpl;
    try discriminate; try (destruct a); try (destruct b); try (destruct c);
    try discriminate; try reflexivity.
  set (e := Z.min e1 (Z.min e2 e3)).
  rewrite (xfin_compare_at m1 e1 m2 e2 e), (xfin_compare_at m2 e2 m3 e3 e),
    (xfin_compare_at m1 e1 m3 e3 e) by (unfold e; lia).
  generalize (m1 * 2 ^ (e1 - e)) (m2 * 2 ^ (e2 - e)) (m3 * 2 ^ (e3 - e)).
  intros p q r.
  destruct (Z.compare_spec p q), (Z.compare_spec q r), (Z.compare_spec p r);
    intros; try discriminate; try reflexivity; lia.
Qed.

(** An expiry not later than a clock reading is earlier than every expiry
    that is later than a later reading. *)
Lemma expiry_advances (exp exp' : value) (t0 t1 : float) :
  py_le exp (VFloat t0) = Ok true ->
  py_le (VFloat t0) (VFloat t1) = Ok true ->
  py_lt (VFloat t1) exp' = Ok true ->
  py_lt exp exp' = Ok true.
Proof.
  unfold py_le, py_lt. simpl.
  destruct (as_num exp) as [x|]; [|discriminate].
  destruct (as_num exp') as [y|]; [|discriminate].
  intros H1 H2 H3. injection H1 as H1. injection H2 as H2. injection H3 as H3.
  f_equal. eapply xle_xlt_trans; [|exact H3]. eapply xle_trans; eassumption.
Qed.

(** ** The access token *)

Section Token.
Context {W : Type} `{Environment W}.

Lemma bind_lift_ok {S A B} (a : A) (k : A -> M S B) s : bind (lift (Ok a)) k s = k a s.
Proof. reflexivity. Qed.

Lemma bind_ret {S A B} (a : A) (k : A -> M S B) s : bind (ret a) k s = k a s.
Proof. reflexivity. Qed.

(** A token that has not expired is returned as it is. *)
Lemma accessToken_with_fresh getResources (self : gmap string value) (w : world W)
    exp tok t e' :
  self !! "expiration" = Some exp ->
  self !! "_accessToken" = Some tok ->
  time_time (env w) = (t, e') ->
  py_lt (VFloat t) exp = Ok true ->
  accessToken_with getResources (self, w)
  = (Ok tok, (self, mkworld e' (trace w) (logged w))).
Proof.
  intros Hexp Htok Htime Hlt. unfold accessToken_with.
  rewrite (bind_ok _ _ _ _ _ (get_attr_some _ _ _ _ Hexp)).
  rewrite (bind_ok _ _ _ _ _ (io_run _ self _ _ _ (clock_run _ _ _ Htime))).
  rewrite (py_lt_not_le _ _ Hlt), bind_lift_ok, bind_ret.
  apply get_attr_some, Htok.
Qed.

(** C1: while the stored expiry is later than the clock, reading the access
    token returns the stored token; no request is issued (the trace is as it
    was), nothing is logged, and the attribute dictionary (token, expiry,
    account identifier, group lists, resource identifiers) is unchanged. *)
Theorem accessToken_cached
    fuel (self : gmap string value) (w : world W) exp tok t e' :
  self !! "expiration" = Some exp ->
  self !! "_accessToken" = Some tok ->
  time_time (env w) = (t, e') ->
  py_lt (VFloat t) exp = Ok true ->
  accessToken (S fuel) (self, w) = (Ok tok, (self, mkworld e' (trace w) (logged w))).
Proof. intros. simpl. eapply accessToken_with_fresh; eassumption. Qed.

End Token.

Lemma accessToken_cached_witness :
  accessToken 1 (mock_session "T1" 2000, mock_world [] 1999.5)
  = (Ok (VStr "T1"), (mock_session "T1" 2000, mock_world [] 1999.5)).
Proof.
  apply (accessToken_cached 0 (mock_session "T1" 2000) (mock_world [] 1999.5)
           (VInt 2000) (VStr "T1") 1999.5%float (env (mock_world [] 1999.5)));
    vm_compute; reflexivity.
Defined.

(** ** The resource listing *)

Section Resources.
Context {W : Type} `{Environment W}.

Lemma descriptor_inv (d : value) :
  is_descriptor d = true ->
  exists kv c r, d = VDict kv /\ dict_get kv (KStr "classifier") = Some c /\
                 dict_get kv (KStr "resourceId") = Some r.
Proof.
  destruct d as [| | | | | |l|kv]; simpl; try discriminate.
  destruct (dict_get kv (KStr "classifier")) as [c|] eqn:Hc; [|discriminate].
  destruct (dict_get kv (KStr "resourceId")) as [r|] eqn:Hr; [|discriminate].
  intros _. exists kv, c, r. repeat split; assumption.
Qed.

Lemma last_id_None (c : string) (ds : list value) :
  forallb is_descriptor ds = true ->
  last_id c ds = None -> last (List.filter (classifier_is c) ds) = None.
Proof.
  intros Hds. unfold last_id.
  destruct (last (List.filter (classifier_is c) ds)) as [y|] eqn:Hlast; [|reflexivity].
  apply last_Some in Hlast as [l' Hl'].
  assert (Hin : In y ds).
  { eapply proj1, filter_In. rewrite Hl'. apply in_or_app. right. left. reflexivity. }
  destruct (descriptor_inv y (proj1 (forallb_forall _ _) Hds y Hin)) as (kv & c' & r & -> & _ & Hr).
  simpl. rewrite Hr. discriminate.
Qed.

Lemma last_id_cons (c : string) (kv : list (key * value)) (ds : list value) cl r :
  dict_get kv (KStr "classifier") = Some cl ->
  dict_get kv (KStr "resourceId") = Some r ->
  forallb is_descriptor ds = true ->
  last_id c (VDict kv :: ds)
  = match last_id c ds with
    | Some r' => Some r'
    | None => if py_eq_str cl c then Some r else None
    end.
Proof.
  intros Hc Hr Hds.
  destruct (last_id c ds) as [r'|] eqn:Hl.
  - unfold last_id in *. simpl List.filter.
    destruct (last (List.filter (classifier_is c) ds)) as [y|] eqn:Hy; [|discriminate].
    destruct (classifier_is c (VDict kv)); [rewrite last_cons|]; rewrite Hy; exact Hl.
  - pose proof (last_id_None c ds Hds Hl) as Hy.
    unfold last_id. simpl List.filter. unfold classifier_is at 1. simpl. rewrite Hc.
    destruct (py_eq_str cl c).
    + rewrite last_cons, Hy. simpl. rewrite Hr. reflexivity.
    + rewrite Hy. reflexivity.
Qed.

(** One turn of the loop on a descriptor. *)
Lemma record_ids_cons (kv : list (key * value)) (ds : list value) cl r
    (self : gmap string value) (w : world W) :
  dict_get kv (KStr "classifier") = Some cl ->
  dict_get kv (KStr "resourceId") = Some r ->
  record_ids (VDict kv :: ds) (self, w)
  = record_ids ds
      (let self1 := if py_eq_str cl "electricity.consumption"
                    then <["elecConsumptionId" := r]> self else self in
       if py_eq_str cl "gas.consumption"
       then <["gasConsumptionId" := r]> self1 else self1, w).
Proof.
  intros Hc Hr. cbn [record_ids]. unfold py_getitem. rewrite Hc, Hr.
  unfold bind, lift, set_attr, ret. cbn beta iota.
  destruct (py_eq_str cl "electricity.consumption"); cbn beta iota;
    destruct (py_eq_str cl "gas.consumption"); reflexivity.
Qed.

(** The loop on a list of descriptors: it ends normally, touches nothing but
    the instance, and leaves the identifiers of the last matches. *)
Lemma record_ids_descriptors (ds : list value) (self : gmap string value) (w : world W) :
  forallb is_descriptor ds = true ->
  exists self', record_ids ds (self, w) = (Ok tt, (self', w)) /\ records_ids ds self self'.
Proof.
  revert self. induction ds as [|d ds IH]; intros self Hds.
  - exists self. split; [reflexivity|]. repeat split; reflexivity.
  - simpl in Hds. apply andb_prop in Hds as [Hd Hds].
    destruct (descriptor_inv d Hd) as (kv & cl & r & -> & Hc & Hr).
    rewrite (record_ids_cons kv ds cl r self w Hc Hr).
    match goal with |- context [record_ids ds (?s, w)] => destruct (IH s Hds) as (self' & Hrun & He & Hg & Ho) end.
    exists self'. split; [exact Hrun|].
    unfold records_ids. rewrite !(last_id_cons _ kv ds cl r Hc Hr Hds).
    split; [|split].
    + rewrite He. destruct (last_id "electricity.consumption" ds); [reflexivity|].
      destruct (py_eq_str cl "electricity.consumption"), (py_eq_str cl "gas.consumption");
        simplify_map_eq; reflexivity.
    + rewrite Hg. destruct (last_id "gas.consumption" ds); [reflexivity|].
      destruct (py_eq_str cl "electricity.consumption"), (py_eq_str cl "gas.consumption");
        simplify_map_eq; reflexivity.
    + intros name Hne Hng. rewrite (Ho name Hne Hng).
      destruct (py_eq_str cl "electricity.consumption"), (py_eq_str cl "gas.consumption");
        simplify_map_eq; reflexivity.
Qed.

(** [getResources] once the token has been read: one listing request, the
    loop over its descriptors, and the list is returned as it came. *)
Lemma getResources_with_listing accessToken (self self1 : gmap string value)
    (w w1 : world W) appId token o ds e2 :
  self !! "_appId" = Some appId ->
  accessToken (self, w) = (Ok token, (self1, w1)) ->
  urlopen (resource_request _RESOURCE_REQ appId token) (env w1) = (o, e2) ->
  json_response o = Some (VList ds) ->
  forallb is_descriptor ds = true ->
  exists self2,
    getResources_with accessToken (self, w)
    = (Ok (VList ds),
       (self2, mkworld e2 ((resource_request _RESOURCE_REQ appId token, o) :: trace w1)
                 (logged w1))) /\
    records_ids ds self1 self2.
Proof.
  intros Happ Htok Hurl Hjson Hds. unfold getResources_with.
  rewrite (bind_ok _ _ _ _ _ (get_attr_some _ _ _ _ Happ)).
  rewrite (bind_ok _ _ _ _ _ Htok).
  rewrite (bind_ok _ _ _ _ _
             (io_run _ self1 _ _ _
                (postRequest_json _RESOURCE_REQ _ None 10 w1 None o _ e2 eq_refl Hurl Hjson))).
  simpl py_iter. rewrite bind_lift_ok.
  match goal with |- context [bind (record_ids ds) _ (self1, ?w')] =>
    destruct (record_ids_descriptors ds self1 w' Hds) as (self2 & Hrun & Hids) end.
  exists self2. split; [|exact Hids].
  rewrite (bind_ok _ _ _ _ _ Hrun). reflexivity.
Qed.

(** C6: given the descriptor list the listing request answers with,
    [getResources] leaves as electricity identifier the [resourceId] of the
    last descriptor whose classifier is exactly ["electricity.consumption"],
    as gas identifier that of the last one with exactly ["gas.consumption"]
    (each unchanged when there is none), changes no other attribute, and
    returns the list as it came. *)
Theorem getResources_records_last_ids
    fuel (self self1 : gmap string value) (w w1 : world W) appId token o ds e2 :
  self !! "_appId" = Some appId ->
  accessToken fuel (self, w) = (Ok token, (self1, w1)) ->
  urlopen (resource_request _RESOURCE_REQ appId token) (env w1) = (o, e2) ->
  json_response o = Some (VList ds) ->
  forallb is_descriptor ds = true ->
  exists self2,
    getResources fuel (self, w)
    = (Ok (VList ds),
       (self2, mkworld e2 ((resource_request _RESOURCE_REQ appId token, o) :: trace w1)
                 (logged w1))) /\
    self2 !! "elecConsumptionId"
      = match last_id "electricity.consumption" ds with
        | Some r => Some r
        | None => self1 !! "elecConsumptionId"
        end /\
    self2 !! "gasConsumptionId"
      = match last_id "gas.consumption" ds with
        | Some r => Some r
        | None => self1 !! "gasConsumptionId"
        end /\
    forall name, name <> "elecConsumptionId" -> name <> "gasConsumptionId" ->
                 self2 !! name = self1 !! name.
Proof.
  intros Happ Htok Hurl Hjson Hds.
  destruct (getResources_with_listing (accessToken fuel) self self1 w w1 appId token o ds e2
              Happ Htok Hurl Hjson Hds) as (self2 & Hrun & Hids).
  exists self2. split; [exact Hrun | exact Hids].
Qed.

End Resources.

Lemma getResources_records_last_ids_witness :
  exists self2,
    getResources 1 (mock_session "T1" 2000,
                    mock_world [json_reply (VList example_descriptors)] 1000)
    = (Ok (VList example_descriptors),
       (self2,
        mkworld (mkmock [] 1000 (mkdatetime 2024 3 1 0 10 5 7))
          [(resource_request _RESOURCE_REQ (VStr "app") (VStr "T1"),
            json_reply (VList example_descriptors))] [])) /\
    self2 !! "elecConsumptionId" = Some (VStr "E1") /\
    self2 !! "gasConsumptionId" = Some (VStr "G1") /\
    forall name, name <> "elecConsumptionId" -> name <> "gasConsumptionId" ->
                 self2 !! name = mock_session "T1" 2000 !! name.
Proof.
  refine (getResources_records_last_ids 1 (mock_session "T1" 2000) (mock_session "T1" 2000)
            (mock_world [json_reply (VList example_descriptors)] 1000)
            (mock_world [json_reply (VList example_descriptors)] 1000)
            (VStr "app") (VStr "T1") (json_reply (VList example_descriptors))
            example_descriptors (mkmock [] 1000 (mkdatetime 2024 3 1 0 10 5 7))
            _ _ _ _ _); vm_compute; reflexivity.
Defined.

(** ** Refreshing the token *)

Section Refresh.
Context {W : Type} `{Environment W}.

Lemma store_session_ok resp token acc exp fga ug (self : gmap string value) (w : world W) :
  py_getitem resp (KStr "token") = Ok token ->
  py_getitem resp (KStr "accountId") = Ok acc ->
  py_getitem resp (KStr "exp") = Ok exp ->
  py_getitem resp (KStr "functionalGroupAccounts") = Ok fga ->
  py_getitem resp (KStr "userGroups") = Ok ug ->
  store_session resp (self, w)
  = (Ok tt,
     (<["userGroups" := ug]> (<["functionalGroupAccounts" := fga]>
      (<["expiration" := exp]> (<["accountId" := acc]>
      (<["_accessToken" := token]> self)))), w)).
Proof.
  intros H1 H2 H3 H4 H5. unfold store_session. rewrite H1, H2, H3, H4, H5. reflexivity.
Qed.

Lemma encode_credentials (username password : value) :
  json_serialisable username = true -> json_serialisable password = true ->
  encode_body (Some [("username", username); ("password", password)])
  = Ok (Some [("username", username); ("password", password)]).
Proof. intros Hu Hp. unfold encode_body. simpl. rewrite Hu, Hp. reflexivity. Qed.

(** C2, as the code has it: when the stored expiry is not later than the
    clock, and the server answers the re-authentication with a document that
    has the five session fields and an expiry later than the clock at the
    next reading, and answers the resource listing that follows with a list
    of descriptors, then reading the access token issues exactly one
    re-authentication request, made of the stored appId, username and
    password, followed by one listing request; the five session fields hold
    the values of the response, the credentials are as they were, the new
    token is returned, and (the clock not running backwards) the expiry is
    strictly later than before. *)
Theorem accessToken_refreshes
    fuel (self : gmap string value) (w : world W)
    exp appId username password t0 e1 o1 resp e2
    token acc exp' fga ug t1 e3 o2 ds e4 :
  self !! "expiration" = Some exp ->
  self !! "_appId" = Some appId ->
  self !! "_username" = Some username ->
  self !! "_password" = Some password ->
  json_serialisable username = true ->
  json_serialisable password = true ->
  time_time (env w) = (t0, e1) ->
  py_le exp (VFloat t0) = Ok true ->
  urlopen (auth_request appId username password) e1 = (o1, e2) ->
  json_response o1 = Some resp ->
  py_getitem resp (KStr "token") = Ok token ->
  py_getitem resp (KStr "accountId") = Ok acc ->
  py_getitem resp (KStr "exp") = Ok exp' ->
  py_getitem resp (KStr "functionalGroupAccounts") = Ok fga ->
  py_getitem resp (KStr "userGroups") = Ok ug ->
  time_time e2 = (t1, e3) ->
  py_lt (VFloat t1) exp' = Ok true ->
  urlopen (resource_request _RESOURCE_REQ appId token) e3 = (o2, e4) ->
  json_response o2 = Some (VList ds) ->
  forallb is_descriptor ds = true ->
  py_le (VFloat t0) (VFloat t1) = Ok true ->
  exists self2,
    accessToken (S (S fuel)) (self, w)
    = (Ok token,
       (self2,
        mkworld e4
          ((resource_request _RESOURCE_REQ appId token, o2)
             :: (auth_request appId username password, o1) :: trace w)
          (logged w))) /\
    self2 !! "_accessToken" = Some token /\
    self2 !! "accountId" = Some acc /\
    self2 !! "expiration" = Some exp' /\
    self2 !! "functionalGroupAccounts" = Some fga /\
    self2 !! "userGroups" = Some ug /\
    self2 !! "_appId" = Some appId /\
    self2 !! "_username" = Some username /\
    self2 !! "_password" = Some password /\
    py_lt exp exp' = Ok true.
Proof.
  intros Hexp Happ Husr Hpwd Hsu Hsp Ht0 Hle Hauth Hresp Htok Hacc Hexp' Hfga Hug
         Ht1 Hlt Hlist Hds Hdesc Hmono.
  set (self1 := <["userGroups" := ug]> (<["functionalGroupAccounts" := fga]>
                (<["expiration" := exp']> (<["accountId" := acc]>
                (<["_accessToken" := token]> self))))).
  set (w2 := mkworld e2 ((auth_request appId username password, o1) :: trace w) (logged w)).
  assert (Hinner : accessToken (S fuel) (self1, w2)
                   = (Ok token, (self1, mkworld e3 (trace w2) (logged w2)))).
  { change (accessToken (S fuel))
      with (accessToken_with (getResources_with (accessToken fuel))).
    apply (accessToken_with_fresh _ self1 w2 exp' token t1 e3);
      [unfold self1; simplify_map_eq; reflexivity
      |unfold self1; simplify_map_eq; reflexivity
      |exact Ht1|exact Hlt]. }
  destruct (getResources_with_listing (accessToken (S fuel)) self1 self1 w2
              (mkworld e3 (trace w2) (logged w2)) appId token
              o2 ds e4 ltac:(unfold self1; simplify_map_eq; reflexivity) Hinner Hlist Hds Hdesc)
    as (self2 & Hres & He & Hg & Hother).
  exists self2.
  assert (Hkeep : forall name v, name <> "elecConsumptionId" -> name <> "gasConsumptionId" ->
                                 self1 !! name = Some v -> self2 !! name = Some v).
  { intros name v Hne Hng Hv. rewrite (Hother name Hne Hng). exact Hv. }
  split.
  - change (accessToken (S (S fuel)))
      with (accessToken_with (getResources_with (accessToken (S fuel)))).
    unfold accessToken_with.
    rewrite (bind_ok _ _ _ _ _ (get_attr_some _ _ _ _ Hexp)).
    rewrite (bind_ok _ _ _ _ _ (io_run _ self _ _ _ (clock_run _ _ _ Ht0))).
    rewrite Hle, bind_lift_ok. cbn iota.
    set (w1 := mkworld e1 (trace w) (logged w)).
    rewrite (bind_ok _ _ (self, w1) tt
               (self2, mkworld e4
                         ((resource_request _RESOURCE_REQ appId token, o2) :: trace w2)
                         (logged w2))).
    + apply get_attr_some. apply Hkeep; [discriminate|discriminate|].
      unfold self1. simplify_map_eq. reflexivity.
    + rewrite (bind_ok _ _ _ _ _ (get_attr_some _ _ _ _ Happ)).
      rewrite (bind_ok _ _ _ _ _ (get_attr_some _ _ _ _ Husr)).
      rewrite (bind_ok _ _ _ _ _ (get_attr_some _ _ _ _ Hpwd)).
      rewrite (bind_ok _ _ _ _ _
                 (io_run _ self _ _ _
                    (postRequest_json _AUTH_REQ _ _ 10 w1 _ o1 resp e2
                       (encode_credentials _ _ Hsu Hsp) Hauth Hresp))).
      rewrite (bind_ok _ _ _ _ _
                 (store_session_ok resp token acc exp' fga ug self _ Htok Hacc Hexp' Hfga Hug)).
      fold self1. fold w2. rewrite (bind_ok _ _ _ _ _ Hres). reflexivity.
  - repeat split;
      try (apply Hkeep; [discriminate|discriminate|unfold self1; simplify_map_eq; reflexivity]).
    eapply expiry_advances; eassumption.
Qed.

End Refresh.

Lemma accessToken_refreshes_witness :
  exists self2,
    accessToken 2 (mock_session "T1" 100,
                   mock_world [auth_reply "T2" 300; json_reply (VList example_descriptors)] 200)
    = (Ok (VStr "T2"),
       (self2,
        mkworld (mkmock [] 200 (mkdatetime 2024 3 1 0 10 5 7))
          [(resource_request _RESOURCE_REQ (VStr "app") (VStr "T2"),
            json_reply (VList example_descriptors));
           (auth_request (VStr "app") (VStr "user") (VStr "secret"), auth_reply "T2" 300)]
          [])) /\
    self2 !! "_accessToken" = Some (VStr "T2") /\
    self2 !! "accountId" = Some (VStr "acc") /\
    self2 !! "expiration" = Some (VInt 300) /\
    self2 !! "functionalGroupAccounts" = Some (VList []) /\
    self2 !! "userGroups" = Some (VList []) /\
    self2 !! "_appId" = Some (VStr "app") /\
    self2 !! "_username" = Some (VStr "user") /\
    self2 !! "_password" = Some (VStr "secret") /\
    py_lt (VInt 100) (VInt 300) = Ok true.
Proof.
  refine (accessToken_refreshes 0 (mock_session "T1" 100)
            (mock_world [auth_reply "T2" 300; json_reply (VList example_descriptors)] 200)
            (VInt 100) (VStr "app") (VStr "user") (VStr "secret")
            200%float (mkmock [auth_reply "T2" 300; json_reply (VList example_descriptors)] 200
                         (mkdatetime 2024 3 1 0 10 5 7))
            (auth_reply "T2" 300)
            (VDict [(KStr "token", VStr "T2"); (KStr "accountId", VStr "acc");
                    (KStr "exp", VInt 300);
                    (KStr "functionalGroupAccounts", VList []);
                    (KStr "userGroups", VList [])])
            (mkmock [json_reply (VList example_descriptors)] 200 (mkdatetime 2024 3 1 0 10 5 7))
            (VStr "T2") (VStr "acc") (VInt 300) (VList []) (VList [])
            200%float (mkmock [json_reply (VList example_descriptors)] 200
                         (mkdatetime 2024 3 1 0 10 5 7))
            (json_reply (VList example_descriptors)) example_descriptors
            (mkmock [] 200 (mkdatetime 2024 3 1 0 10 5 7))
            _ _ _ _ _ _ _ _ _ _ _ _ _ _ _ _ _ _ _ _ _); vm_compute; reflexivity.
Defined.

(** C2 as stated fails: the stored expiry is 100 and the clock reads 200; the
    server answers the first re-authentication with a token that expires at
    150, which is still not later than the clock, so the nested read of the
    token re-authenticates again.  Two re-authentication requests are
    issued, not one, and the fields of the first response are replaced by
    those of the second. *)
Lemma accessToken_refreshes_twice :
  py_le (VInt 100) (VFloat 200) = Ok true /\
  let run := accessToken 3
               (mock_session "T1" 100,
                mock_world [auth_reply "T2" 150; auth_reply "T3" 300;
                            json_reply (VList []); json_reply (VList [])] 200) in
  fst run = Ok (VStr "T3") /\
  List.map (fun ro => req_url (fst ro)) (trace (snd (snd run)))
  = [_RESOURCE_REQ; _RESOURCE_REQ; _AUTH_REQ; _AUTH_REQ] /\
  List.length (List.filter (fun ro => String.eqb (req_url (fst ro)) _AUTH_REQ)
                 (trace (snd (snd run)))) = 2%nat.
Proof. vm_compute. repeat split; reflexivity. Qed.

(** ** Dictionaries *)

Lemma key_eqb_refl (k : key) : key_eqb k k = true.
Proof. destruct k; simpl; [apply String.eqb_refl | apply Z.eqb_refl]. Qed.

Lemma key_eqb_eq (a b : key) : key_eqb a b = true -> a = b.
Proof.
  destruct a, b; simpl; try discriminate; intros E.
  - apply String.eqb_eq in E. congruence.
  - apply Z.eqb_eq in E. congruence.
Qed.

Lemma dict_get_set_eq (d : list (key * value)) (k : key) (v : value) :
  dict_get (dict_set d k v) k = Some v.
Proof.
  induction d as [|[k' v'] d IH]; simpl.
  - rewrite key_eqb_refl. reflexivity.
  - destruct (key_eqb k' k) eqn:E; simpl; rewrite E; [reflexivity | exact IH].
Qed.

Lemma dict_get_set_ne (d : list (key * value)) (k k' : key) (v : value) :
  key_eqb k k' = false -> dict_get (dict_set d k v) k' = dict_get d k'.
Proof.
  intros Hne. induction d as [|[k0 v0] d IH]; simpl.
  - rewrite Hne. reflexivity.
  - destruct (key_eqb k0 k) eqn:E; simpl.
    + apply key_eqb_eq in E. subst k0. rewrite Hne. reflexivity.
    + destruct (key_eqb k0 k'); [reflexivity | exact IH].
Qed.

Ltac dict_simpl :=
  repeat (rewrite dict_get_set_eq || rewrite dict_get_set_ne by reflexivity).

(** ** The accessors *)

Section Accessors.
Context {W : Type} `{Environment W}.

Lemma accessToken_fresh fuel (self : gmap string value) (w : world W) exp token t e' :
  self !! "expiration" = Some exp ->
  self !! "_accessToken" = Some token ->
  time_time (env w) = (t, e') ->
  py_lt (VFloat t) exp = Ok true ->
  accessToken (S fuel) (self, w) = (Ok token, (self, mkworld e' (trace w) (logged w))).
Proof.
  change (accessToken (S fuel)) with (accessToken_with (getResources_with (accessToken fuel))).
  apply accessToken_with_fresh.
Qed.

(** With a token that has not expired the head is built without a request
    and the instance stays as it is. *)
Lemma resource_head_fresh fuel (self : gmap string value) (w : world W)
    appId token exp e' :
  session_of self appId token exp ->
  fresh exp (env w) e' ->
  resource_head (S fuel) (self, w)
  = (Ok [("applicationId", appId); ("token", token)],
     (self, mkworld e' (trace w) (logged w))).
Proof.
  intros (Happ & Htok & Hexp) (t & Htime & Hlt). unfold resource_head.
  rewrite (bind_ok _ _ _ _ _ (get_attr_some _ _ _ _ Happ)).
  rewrite (bind_ok _ _ _ _ _ (accessToken_fresh fuel self w exp token t e' Hexp Htok Htime Hlt)).
  reflexivity.
Qed.

(** Once the head is built, the request for a sub-resource of a string
    identifier is issued and its JSON answer returned. *)
Lemma request_answered (self : gmap string value) (w : world W) head id sub o v e' :
  answers (env w) (head_request (resource_url id sub) head) o v e' ->
  bind (lift (str_add (_RESOURCE_REQ +:+ "/") (VStr id)))
    (fun url => io (postRequest (url +:+ sub) (Some head) None 10)) (self, w)
  = (Ok v, (self, mkworld e' ((head_request (resource_url id sub) head, o) :: trace w)
                    (logged w))).
Proof.
  intros (Hurl & Hjson). simpl str_add. rewrite bind_lift_ok.
  apply io_run.
  apply (postRequest_json (resource_url id sub) (Some head) None 10 w None o v e'
           eq_refl Hurl Hjson).
Qed.

Lemma getCurResource_answered fuel (self self1 : gmap string value) (w w1 : world W)
    head id o v e' :
  resource_head fuel (self, w) = (Ok head, (self1, w1)) ->
  answers (env w1) (head_request (resource_url id "/current") head) o v e' ->
  getCurResource fuel (VStr id) (self, w)
  = (Ok v, (self1, mkworld e' ((head_request (resource_url id "/current") head, o) :: trace w1)
                     (logged w1))).
Proof.
  intros Hhead Ha. unfold getCurResource. rewrite (bind_ok _ _ _ _ _ Hhead).
  apply request_answered, Ha.
Qed.

Lemma getReading_answered fuel (self self1 : gmap string value) (w w1 : world W)
    head id dfrom dto period offset func o v e' :
  resource_head fuel (self, w) = (Ok head, (self1, w1)) ->
  answers (env w1) (head_request (readings_url id dfrom dto period offset func) head) o v e' ->
  getReading fuel (VStr id) dfrom dto period offset func (self, w)
  = (Ok v,
     (self1, mkworld e'
               ((head_request (readings_url id dfrom dto period offset func) head, o)
                  :: trace w1) (logged w1))).
Proof.
  intros Hhead Ha. unfold getReading. rewrite (bind_ok _ _ _ _ _ Hhead).
  apply (request_answered self1 w1 head id
           ("/readings?" +:+
            urlencode [("from", dfrom); ("to", dto); ("period", period);
                       ("offset", pretty offset); ("function", func)]) o v e' Ha).
Qed.

Lemma fetch_sub_answered fuel (self self1 : gmap string value) (w w1 : world W)
    head attr id sub o v e' :
  resource_head fuel (self, w) = (Ok head, (self1, w1)) ->
  self1 !! attr = Some (VStr id) ->
  answers (env w1) (head_request (resource_url id sub) head) o v e' ->
  fetch_sub fuel attr sub (self, w)
  = (Ok v, (self1, mkworld e' ((head_request (resource_url id sub) head, o) :: trace w1)
                     (logged w1))).
Proof.
  intros Hhead Hid Ha. unfold fetch_sub. rewrite (bind_ok _ _ _ _ _ Hhead).
  rewrite (bind_ok _ _ _ _ _ (get_attr_some _ _ _ _ Hid)).
  apply request_answered, Ha.
Qed.

(** Rate, standing charge and cost added to a reading whose first data
    point carries the value [v]. *)
Lemma add_cost_ok (cd : list (key * value)) (tariff pd rate standing p v units : value)
    (drest : list value) :
  getpath tariff [KStr "data"; KInt 0; KStr "plan"; KInt 0; KStr "planDetail"] = Ok pd ->
  getpath pd [KInt 0; KStr "rate"] = Ok rate ->
  getpath pd [KInt 1; KStr "standing"] = Ok standing ->
  dict_get cd (KStr "data") = Some (VList (p :: drest)) ->
  py_getitem p (KInt 1) = Ok v ->
  dict_get cd (KStr "units") = Some units ->
  add_cost (VDict cd) tariff
  = Ok (VDict (dict_set (dict_set (dict_set cd (KStr "rate") rate)
                           (KStr "standing") standing)
                 (KStr "cost") (toCost rate v units))).
Proof.
  intros Hpd Hrate Hstanding Hdata Hv Hunits. unfold add_cost.
  rewrite Hpd. cbn [rbind]. rewrite Hrate. cbn [rbind py_setitem].
  rewrite Hstanding. cbn [rbind py_setitem].
  cbn [py_getitem getpath]. dict_simpl. cbn [rbind].
  rewrite Hdata. cbn [rbind].
  change (py_getitem (VList (p :: drest)) (KInt 0)) with (Ok p : result value).
  cbn [rbind]. rewrite Hv. cbn [rbind]. rewrite Hunits. reflexivity.
Qed.


End Accessors.


(** ** The gas meter read *)

Lemma dict_set_set (d : list (key * value)) (k : key) (x y : value) :
  dict_set (dict_set d k x) k y = dict_set d k y.
Proof.
  induction d as [|[k' v'] d IH]; simpl.
  - rewrite key_eqb_refl. reflexivity.
  - destruct (key_eqb k' k) eqn:E; simpl; rewrite E; [reflexivity | rewrite IH; reflexivity].
Qed.

Lemma seq_index_1 (n : nat) : seq_index (S (S n)) 1 = Some 1%nat.
Proof.
  unfold seq_index.
  assert (E : (1 <? Z.of_nat (S (S n))) = true) by (apply Z.ltb_lt; lia).
  rewrite E. reflexivity.
Qed.

Lemma getitem_list_1 (x y : value) (l : list value) :
  py_getitem (VList (x :: y :: l)) (KInt 1) = Ok y.
Proof. unfold py_getitem. cbn [List.length]. rewrite seq_index_1. reflexivity. Qed.

Lemma setitem_list_1 (x y v : value) (l : list value) :
  py_setitem (VList (x :: y :: l)) (KInt 1) v = Ok (VList (x :: v :: l)).
Proof. unfold py_setitem. cbn [List.length]. rewrite seq_index_1. reflexivity. Qed.

(** Overwriting one field of the first data point of a reading. *)
Lemma set_first_point_field_0 (md : list (key * value)) (t0 v : value) (prest drest : list value) :
  dict_get md (KStr "data") = Some (VList (VList (t0 :: prest) :: drest)) ->
  set_first_point_field (VDict md) 0 v
  = Ok (VDict (dict_set md (KStr "data") (VList (VList (v :: prest) :: drest)))).
Proof.
  intros Hdata. unfold set_first_point_field, set_first_point.
  cbn [getpath py_getitem]. rewrite Hdata. reflexivity.
Qed.

Lemma set_first_point_field_1 (md : list (key * value)) (t0 v0 v : value)
    (prest drest : list value) :
  dict_get md (KStr "data") = Some (VList (VList (t0 :: v0 :: prest) :: drest)) ->
  set_first_point_field (VDict md) 1 v
  = Ok (VDict (dict_set md (KStr "data") (VList (VList (t0 :: v :: prest) :: drest)))).
Proof.
  intros Hdata. unfold set_first_point_field, set_first_point.
  cbn [getpath py_getitem]. rewrite Hdata. cbn [rbind].
  change (py_getitem (VList (VList (t0 :: v0 :: prest) :: drest)) (KInt 0))
    with (Ok (VList (t0 :: v0 :: prest))).
  cbn [rbind]. rewrite setitem_list_1. reflexivity.
Qed.

Section MeterRead.
Context {W : Type} `{Environment W}.

(** C8: [getGasMeterRead] fetches the meter read, then the current
    consumption.  For every answer to the two requests, it returns the
    meter-read document with the timestamp of its first data point replaced
    by the first timestamp of the current consumption and its value replaced
    by the first value of the current consumption times 1000; the rest of
    the first data point, the other data points and every other key are
    unchanged. *)
Theorem getGasMeterRead_overwrites
    fuel (self self1 self2 : gmap string value) (w w1 w2 : world W)
    head1 head2 gid o1 md e2 o2 cur e4
    t0 v0 prest drest t1 v1 v1k :
  resource_head fuel (self, w) = (Ok head1, (self1, w1)) ->
  self1 !! "gasConsumptionId" = Some (VStr gid) ->
  answers (env w1) (head_request (resource_url gid "/meterread") head1) o1 (VDict md) e2 ->
  resource_head fuel
    (self1,
     mkworld e2 ((head_request (resource_url gid "/meterread") head1, o1) :: trace w1)
       (logged w1))
  = (Ok head2, (self2, w2)) ->
  answers (env w2) (head_request (resource_url gid "/current") head2) o2 cur e4 ->
  dict_get md (KStr "data") = Some (VList (VList (t0 :: v0 :: prest) :: drest)) ->
  getpath cur [KStr "data"; KInt 0; KInt 0] = Ok t1 ->
  getpath cur [KStr "data"; KInt 0; KInt 1] = Ok v1 ->
  py_mul v1 (VInt 1000) = Ok v1k ->
  getGasMeterRead fuel (self, w)
  = (Ok (VDict (dict_set md (KStr "data") (VList (VList (t1 :: v1k :: prest) :: drest)))),
     (self2,
      mkworld e4 ((head_request (resource_url gid "/current") head2, o2) :: trace w2)
        (logged w2))) /\
  forall k, key_eqb (KStr "data") k = false ->
    dict_get (dict_set md (KStr "data") (VList (VList (t1 :: v1k :: prest) :: drest))) k
    = dict_get md k.
Proof.
  intros Hh1 Hgid Ha1 Hh2 Ha2 Hdata Ht1 Hv1 Hmul.
  split; [|intros k Hk; apply dict_get_set_ne; exact Hk].
  unfold getGasMeterRead.
  rewrite (bind_ok _ _ _ _ _ Hh1).
  rewrite (bind_ok _ _ _ _ _ (get_attr_some _ _ _ _ Hgid)).
  rewrite (bind_ok (lift (str_add (_RESOURCE_REQ +:+ "/") (VStr gid))) _ _ _ _ eq_refl).
  destruct Ha1 as (Hurl1 & Hjson1).
  rewrite (bind_ok _ _ _ _ _
             (io_run _ self1 _ _ _
                (postRequest_json (resource_url gid "/meterread") (Some head1) None 10
                   w1 None o1 (VDict md) e2 eq_refl Hurl1 Hjson1))).
  rewrite (bind_ok _ _ _ _ _ (get_attr_some _ _ _ _ Hgid)).
  rewrite (bind_ok _ _ _ _ _ (getCurResource_answered fuel _ _ _ _ _ _ _ _ _ Hh2 Ha2)).
  rewrite Ht1, bind_lift_ok.
  rewrite (set_first_point_field_0 md t0 t1 (v0 :: prest) drest Hdata), bind_lift_ok.
  rewrite Hv1. cbn [rbind]. rewrite Hmul, bind_lift_ok.
  rewrite (set_first_point_field_1 _ t1 v0 v1k prest drest (dict_get_set_eq _ _ _)).
  rewrite dict_set_set. reflexivity.
Qed.

End MeterRead.

Lemma getGasMeterRead_overwrites_witness :
  fst (getGasMeterRead 1
         (mock_session_ids "T1" 2000,
          mock_world [reading_reply 1709251200 100 "kWh"; reading_reply 1709253000 3 "kWh"]
            1000))
  = Ok (VDict [(KStr "data", VList [VList [VInt 1709253000; VInt 3000]]);
               (KStr "units", VStr "kWh")]).
Proof.
  pose (today := mkdatetime 2024 3 1 0 10 5 7).
  pose (head := [("applicationId", VStr "app"); ("token", VStr "T1")]).
  refine (f_equal fst
            (proj1 (getGasMeterRead_overwrites 1
              (mock_session_ids "T1" 2000) (mock_session_ids "T1" 2000)
              (mock_session_ids "T1" 2000)
              (mock_world [reading_reply 1709251200 100 "kWh"; reading_reply 1709253000 3 "kWh"]
                 1000)
              (mock_world [reading_reply 1709251200 100 "kWh"; reading_reply 1709253000 3 "kWh"]
                 1000)
              (mkworld (mkmock [reading_reply 1709253000 3 "kWh"] 1000 today)
                 [(head_request (resource_url "G1" "/meterread") head,
                   reading_reply 1709251200 100 "kWh")] [])
              head head "G1"
              (reading_reply 1709251200 100 "kWh")
              [(KStr "data", VList [VList [VInt 1709251200; VInt 100]]);
               (KStr "units", VStr "kWh")]
              (mkmock [reading_reply 1709253000 3 "kWh"] 1000 today)
              (reading_reply 1709253000 3 "kWh")
              (VDict [(KStr "data", VList [VList [VInt 1709253000; VInt 3]]);
                      (KStr "units", VStr "kWh")])
              (mkmock [] 1000 today)
              (VInt 1709251200) (VInt 100) [] [] (VInt 1709253000) (VInt 3) (VInt 3000)
              _ _ _ _ _ _ _ _ _)));
    try (vm_compute; reflexivity);
    try (split; vm_compute; reflexivity).
Defined.

(** ** Identifiers are assigned only from a listing *)



Section Invariant.
Context {W : Type} `{Environment W}.




(** What the result of a sequence says about its two parts. *)
Lemma bind_inv {S A B} (m : M S A) (k : A -> M S B) s r s' :
  bind m k s = (r, s') ->
  (exists a s1, m s = (Ok a, s1) /\ k a s1 = (r, s')) \/
  (exists e, m s = (Raise e, s') /\ r = Raise e).
Proof.
  unfold bind. destruct (m s) as [[a|e] s1]; intros E.
  - left. exists a, s1. auto.
  - right. exists e. injection E as <- <-. auto.
Qed.
































End Invariant.


(** * Further properties *)

(** ** One call of [postRequest] *)

Section TransportEffects.
Context {W : Type} `{Environment W}.

(** X1: a call of [postRequest] issues at most one request.  When the body
    cannot be serialised it raises [TypeError] and nothing is sent or
    logged; otherwise exactly one request is sent, and a line is logged
    exactly when the outcome is an [HTTPError], in which case [None] is
    returned. *)
Theorem postRequest_effects url head body timeout (w : world W) r w' :
  postRequest url head body timeout w = (r, w') ->
  (encode_body body = Raise TypeError /\ r = Raise TypeError /\ w' = w) \/
  (exists data o,
     encode_body body = Ok data /\
     urlopen (mkrequest url (add_headers head) data timeout) (env w) = (o, env w') /\
     trace w' = (mkrequest url (add_headers head) data timeout, o) :: trace w /\
     ((exists code reason,
         o = HTTPError code reason /\ r = Ok VNone /\
         logged w' = ("code=" +:+ pretty code +:+ ", reason=" +:+ reason) :: logged w) \/
      ((forall code reason, o <> HTTPError code reason) /\ logged w' = logged w))).
Proof.
  unfold postRequest, bind, lift, do_urlopen.
  destruct (encode_body body) as [data|e] eqn:Henc.
  - destruct (urlopen (mkrequest url (add_headers head) data timeout) (env w)) as [o e1] eqn:Hu.
    intros E. right. exists data, o.
    destruct o as [[ct|] b|code reason|e]; simpl in E.
    + destruct (str_contains "application/json" ct);
        [destruct (parsed b)|]; injection E as <- <-; simpl;
        (split; [reflexivity|]); (split; [exact Hu|]); (split; [reflexivity|]);
        right; (split; [discriminate | reflexivity]).
    + injection E as <- <-. simpl.
      split; [reflexivity|]. split; [exact Hu|]. split; [reflexivity|].
      right. split; [discriminate | reflexivity].
    + injection E as <- <-. simpl.
      split; [reflexivity|]. split; [exact Hu|]. split; [reflexivity|].
      left. exists code, reason. auto.
    + injection E as <- <-. simpl.
      split; [reflexivity|]. split; [exact Hu|]. split; [reflexivity|].
      right. split; [discriminate | reflexivity].
  - intros E. left. injection E as <- <-.
    unfold encode_body in Henc. destruct body as [[|kv b]|]; try discriminate.
    destruct (forallb _ _); [discriminate|]. injection Henc as <-. auto.
Qed.

End TransportEffects.

Lemma postRequest_effects_witness :
  exists data o,
    encode_body (Some [("username", VStr "user")]) = Ok data /\
    [(mkrequest _AUTH_REQ (add_headers None) (Some [("username", VStr "user")]) 10,
      HTTPError 500 "Server Error")]
    = (mkrequest _AUTH_REQ (add_headers None) data 10, o) :: [].
Proof.
  destruct (postRequest_effects (H := mock_env) _AUTH_REQ None (Some [("username", VStr "user")]) 10
              (mock_world [HTTPError 500 "Server Error"] 0)
              (Ok VNone)
              (mkworld (mkmock [] 0 (mkdatetime 2024 3 1 0 10 5 7))
                 [(mkrequest _AUTH_REQ (add_headers None)
                     (Some [("username", VStr "user")]) 10,
                   HTTPError 500 "Server Error")]
                 ["code=500, reason=Server Error"])
              ltac:(vm_compute; reflexivity))
    as [(Habs & _)|(data & o & Henc & _ & Htrace & _)]; [discriminate|].
  exists data, o. split; [exact Henc | exact Htrace].
Defined.

(** ** Construction and refresh, beyond the claims *)

Section Lifecycle.
Context {W : Type} `{Environment W}.

Lemma getitem_str_truthy (v x : value) (k : string) :
  py_getitem v (KStr k) = Ok x -> py_truthy v = true.
Proof.
  destruct v as [| | | | | | |d]; simpl; try discriminate.
  destruct d; [discriminate | reflexivity].
Qed.

(** X2: when the server answers the authentication with a document that has
    the five session fields and an expiry later than the clock, and answers
    the listing with a list of descriptors, the constructor returns an
    instance after exactly these two requests; the instance holds the
    credentials, the five fields of the response, and the identifiers of the
    last descriptors with the two classifiers (unset when there is none). *)
Theorem Glow_constructs
    fuel appId username password (w : world W)
    o1 resp e1 token acc exp fga ug t e2 o2 ds e3 :
  json_serialisable username = true ->
  json_serialisable password = true ->
  urlopen (auth_request appId username password) (env w) = (o1, e1) ->
  json_response o1 = Some resp ->
  py_getitem resp (KStr "token") = Ok token ->
  py_getitem resp (KStr "accountId") = Ok acc ->
  py_getitem resp (KStr "exp") = Ok exp ->
  py_getitem resp (KStr "functionalGroupAccounts") = Ok fga ->
  py_getitem resp (KStr "userGroups") = Ok ug ->
  time_time e1 = (t, e2) ->
  py_lt (VFloat t) exp = Ok true ->
  urlopen (resource_request _RESOURCE_REQ appId token) e2 = (o2, e3) ->
  json_response o2 = Some (VList ds) ->
  forallb is_descriptor ds = true ->
  exists self,
    Glow (S fuel) appId username password w
    = (Ok self,
       mkworld e3
         ((resource_request _RESOURCE_REQ appId token, o2)
            :: (auth_request appId username password, o1) :: trace w)
         (logged w)) /\
    self !! "_appId" = Some appId /\
    self !! "_username" = Some username /\
    self !! "_password" = Some password /\
    self !! "_accessToken" = Some token /\
    self !! "accountId" = Some acc /\
    self !! "expiration" = Some exp /\
    self !! "functionalGroupAccounts" = Some fga /\
    self !! "userGroups" = Some ug /\
    self !! "elecConsumptionId" = last_id "electricity.consumption" ds /\
    self !! "gasConsumptionId" = last_id "gas.consumption" ds.
Proof.
  intros Hsu Hsp Hauth Hresp Htok Hacc Hexp Hfga Hug Ht Hlt Hlist Hds Hdesc.
  set (self1 := <["userGroups" := ug]> (<["functionalGroupAccounts" := fga]>
                (<["expiration" := exp]> (<["accountId" := acc]>
                (<["_accessToken" := token]> (<["_password" := password]>
                (<["_username" := username]>
                (<["_appId" := appId]> (∅ : gmap string value))))))))).
  set (w1 := mkworld e1 ((auth_request appId username password, o1) :: trace w) (logged w)).
  assert (Hinner : accessToken (S fuel) (self1, w1)
                   = (Ok token, (self1, mkworld e2 (trace w1) (logged w1)))).
  { change (accessToken (S fuel))
      with (accessToken_with (getResources_with (accessToken fuel))).
    apply (accessToken_with_fresh _ self1 w1 exp token t e2);
      [unfold self1; simplify_map_eq; reflexivity
      |unfold self1; simplify_map_eq; reflexivity
      |exact Ht|exact Hlt]. }
  destruct (getResources_with_listing (accessToken (S fuel)) self1 self1 w1
              (mkworld e2 (trace w1) (logged w1)) appId token
              o2 ds e3 ltac:(unfold self1; simplify_map_eq; reflexivity) Hinner Hlist Hds Hdesc)
    as (self2 & Hres & He & Hg & Hother).
  exists self2.
  assert (Hkeep : forall name v, name <> "elecConsumptionId" -> name <> "gasConsumptionId" ->
                                 self1 !! name = Some v -> self2 !! name = Some v).
  { intros name v Hne Hng Hv. rewrite (Hother name Hne Hng). exact Hv. }
  assert (Hinit : __init__ (S fuel) appId username password (∅, w)
                  = (Ok tt, (self2, mkworld e3
                                      ((resource_request _RESOURCE_REQ appId token, o2) :: trace w1)
                                      (logged w1)))).
  { unfold __init__.
    rewrite (bind_ok _ _ _ _ _
               (io_run _ ∅ _ _ _
                  (postRequest_json _AUTH_REQ _ _ 10 w _ o1 resp e1
                     (encode_credentials _ _ Hsu Hsp) Hauth Hresp))).
    rewrite (getitem_str_truthy _ _ _ Htok). rewrite bind_ret.
    unfold set_attr at 1 2 3. unfold bind at 1 2 3. cbn [fst snd].
    rewrite (bind_ok _ _ _ _ _
               (store_session_ok resp token acc exp fga ug _ _ Htok Hacc Hexp Hfga Hug)).
    fold self1. fold w1. unfold getResources. rewrite (bind_ok _ _ _ _ _ Hres). reflexivity. }
  split; [unfold Glow; rewrite Hinit; reflexivity|].
  repeat split;
    try (apply Hkeep; [discriminate|discriminate|unfold self1; simplify_map_eq; reflexivity]).
  - rewrite He. destruct (last_id "electricity.consumption" ds); [reflexivity|].
    unfold self1. simplify_map_eq. reflexivity.
  - rewrite Hg. destruct (last_id "gas.consumption" ds); [reflexivity|].
    unfold self1. simplify_map_eq. reflexivity.
Qed.

Lemma postRequest_http_none url head body timeout (w : world W) data code reason e' :
  encode_body body = Ok data ->
  urlopen (mkrequest url (add_headers head) data timeout) (env w)
    = (HTTPError code reason, e') ->
  postRequest url head body timeout w
  = (Ok VNone,
     mkworld e' ((mkrequest url (add_headers head) data timeout, HTTPError code reason)
                   :: trace w)
       (("code=" +:+ pretty code +:+ ", reason=" +:+ reason) :: logged w)).
Proof.
  intros Henc Hurl. unfold postRequest, bind, lift, do_urlopen. rewrite Henc, Hurl. reflexivity.
Qed.

(** X3: when the authentication succeeds but the listing request that
    follows is answered with an HTTP error, [postRequest] returns [None],
    the loop of [getResources] cannot iterate it, and the constructor raises
    [TypeError]: no instance is returned although the credentials were
    accepted. *)
Theorem Glow_fails_on_listing_error
    fuel appId username password (w : world W)
    o1 resp e1 token acc exp fga ug t e2 code reason e3 :
  json_serialisable username = true ->
  json_serialisable password = true ->
  urlopen (auth_request appId username password) (env w) = (o1, e1) ->
  json_response o1 = Some resp ->
  py_getitem resp (KStr "token") = Ok token ->
  py_getitem resp (KStr "accountId") = Ok acc ->
  py_getitem resp (KStr "exp") = Ok exp ->
  py_getitem resp (KStr "functionalGroupAccounts") = Ok fga ->
  py_getitem resp (KStr "userGroups") = Ok ug ->
  time_time e1 = (t, e2) ->
  py_lt (VFloat t) exp = Ok true ->
  urlopen (resource_request _RESOURCE_REQ appId token) e2 = (HTTPError code reason, e3) ->
  Glow (S fuel) appId username password w
  = (Raise TypeError,
     mkworld e3
       ((resource_request _RESOURCE_REQ appId token, HTTPError code reason)
          :: (auth_request appId username password, o1) :: trace w)
       (("code=" +:+ pretty code +:+ ", reason=" +:+ reason) :: logged w)).
Proof.
  intros Hsu Hsp Hauth Hresp Htok Hacc Hexp Hfga Hug Ht Hlt Hlist.
  set (self1 := <["userGroups" := ug]> (<["functionalGroupAccounts" := fga]>
                (<["expiration" := exp]> (<["accountId" := acc]>
                (<["_accessToken" := token]> (<["_password" := password]>
                (<["_username" := username]>
                (<["_appId" := appId]> (∅ : gmap string value))))))))).
  set (w1 := mkworld e1 ((auth_request appId username password, o1) :: trace w) (logged w)).
  assert (Hinner : accessToken (S fuel) (self1, w1)
                   = (Ok token, (self1, mkworld e2 (trace w1) (logged w1)))).
  { change (accessToken (S fuel))
      with (accessToken_with (getResources_with (accessToken fuel))).
    apply (accessToken_with_fresh _ self1 w1 exp token t e2);
      [unfold self1; simplify_map_eq; reflexivity
      |unfold self1; simplify_map_eq; reflexivity
      |exact Ht|exact Hlt]. }
  unfold Glow, __init__.
  rewrite (bind_ok _ _ _ _ _
             (io_run _ ∅ _ _ _
                (postRequest_json _AUTH_REQ _ _ 10 w _ o1 resp e1
                   (encode_credentials _ _ Hsu Hsp) Hauth Hresp))).
  rewrite (getitem_str_truthy _ _ _ Htok). rewrite bind_ret.
  unfold set_attr at 1 2 3. unfold bind at 1 2 3. cbn [fst snd].
  rewrite (bind_ok _ _ _ _ _
             (store_session_ok resp token acc exp fga ug _ _ Htok Hacc Hexp Hfga Hug)).
  fold self1. fold w1. unfold getResources, getResources_with.
  rewrite (bind_raise _ _ (self1, w1) TypeError
             (self1, mkworld e3
                       ((resource_request _RESOURCE_REQ appId token, HTTPError code reason)
                          :: trace w1)
                       (("code=" +:+ pretty code +:+ ", reason=" +:+ reason) :: logged w1)));
    [reflexivity|].
  rewrite (bind_ok _ _ _ _ _
             (get_attr_some "_appId" self1 w1 appId
                ltac:(unfold self1; simplify_map_eq; reflexivity))).
  rewrite (bind_ok _ _ _ _ _ Hinner).
  rewrite (bind_ok _ _ _ _ _
             (io_run _ self1 _ _ _
                (postRequest_http_none _RESOURCE_REQ _ None 10
                   (mkworld e2 (trace w1) (logged w1)) None code reason e3 eq_refl Hlist))).
  reflexivity.
Qed.

(** X4: when the stored expiry is not later than the clock and the
    re-authentication is answered with an HTTP error, reading the access
    token raises [TypeError] (the refresh has no check of the response, and
    subscripts [None]); one request was issued, one line logged, and the
    instance is as it was, with the expired token. *)
Theorem accessToken_refresh_rejected
    fuel (self : gmap string value) (w : world W)
    exp appId username password t e1 code reason e2 :
  self !! "expiration" = Some exp ->
  self !! "_appId" = Some appId ->
  self !! "_username" = Some username ->
  self !! "_password" = Some password ->
  json_serialisable username = true ->
  json_serialisable password = true ->
  time_time (env w) = (t, e1) ->
  py_le exp (VFloat t) = Ok true ->
  urlopen (auth_request appId username password) e1 = (HTTPError code reason, e2) ->
  accessToken (S fuel) (self, w)
  = (Raise TypeError,
     (self,
      mkworld e2 ((auth_request appId username password, HTTPError code reason) :: trace w)
        (("code=" +:+ pretty code +:+ ", reason=" +:+ reason) :: logged w))).
Proof.
  intros Hexp Happ Husr Hpwd Hsu Hsp Ht Hle Hauth.
  change (accessToken (S fuel)) with (accessToken_with (getResources_with (accessToken fuel))).
  unfold accessToken_with.
  rewrite (bind_ok _ _ _ _ _ (get_attr_some _ _ _ _ Hexp)).
  rewrite (bind_ok _ _ _ _ _ (io_run _ self _ _ _ (clock_run _ _ _ Ht))).
  rewrite Hle, bind_lift_ok. cbn iota.
  apply bind_raise.
  rewrite (bind_ok _ _ _ _ _ (get_attr_some _ _ _ _ Happ)).
  rewrite (bind_ok _ _ _ _ _ (get_attr_some _ _ _ _ Husr)).
  rewrite (bind_ok _ _ _ _ _ (get_attr_some _ _ _ _ Hpwd)).
  rewrite (bind_ok _ _ _ _ _
             (io_run _ self _ _ _
                (postRequest_http_none _AUTH_REQ _ _ 10 (mkworld e1 (trace w) (logged w)) _
                   code reason e2 (encode_credentials _ _ Hsu Hsp) Hauth))).
  reflexivity.
Qed.

(** X5: the refresh stores the fields of the response one by one.  When the
    response has a token and an account identifier but no [exp], reading
    the access token raises [KeyError] after the first two were stored: the
    instance then holds the new token together with the old, expired
    expiry. *)
Theorem accessToken_refresh_not_atomic
    fuel (self : gmap string value) (w : world W)
    exp appId username password t e1 o1 d e2 token acc :
  self !! "expiration" = Some exp ->
  self !! "_appId" = Some appId ->
  self !! "_username" = Some username ->
  self !! "_password" = Some password ->
  json_serialisable username = true ->
  json_serialisable password = true ->
  time_time (env w) = (t, e1) ->
  py_le exp (VFloat t) = Ok true ->
  urlopen (auth_request appId username password) e1 = (o1, e2) ->
  json_response o1 = Some (VDict d) ->
  dict_get d (KStr "token") = Some token ->
  dict_get d (KStr "accountId") = Some acc ->
  dict_get d (KStr "exp") = None ->
  exists self',
    accessToken (S fuel) (self, w)
    = (Raise (KeyError (KStr "exp")),
       (self', mkworld e2 ((auth_request appId username password, o1) :: trace w) (logged w))) /\
    self' !! "_accessToken" = Some token /\
    self' !! "accountId" = Some acc /\
    self' !! "expiration" = Some exp.
Proof.
  intros Hexp Happ Husr Hpwd Hsu Hsp Ht Hle Hauth Hresp Htok Hacc Hnoexp.
  exists (<["accountId" := acc]> (<["_accessToken" := token]> self)).
  split; [|simplify_map_eq; auto].
  change (accessToken (S fuel)) with (accessToken_with (getResources_with (accessToken fuel))).
  unfold accessToken_with.
  rewrite (bind_ok _ _ _ _ _ (get_attr_some _ _ _ _ Hexp)).
  rewrite (bind_ok _ _ _ _ _ (io_run _ self _ _ _ (clock_run _ _ _ Ht))).
  rewrite Hle, bind_lift_ok. cbn iota.
  apply bind_raise.
  rewrite (bind_ok _ _ _ _ _ (get_attr_some _ _ _ _ Happ)).
  rewrite (bind_ok _ _ _ _ _ (get_attr_some _ _ _ _ Husr)).
  rewrite (bind_ok _ _ _ _ _ (get_attr_some _ _ _ _ Hpwd)).
  rewrite (bind_ok _ _ _ _ _
             (io_run _ self _ _ _
                (postRequest_json _AUTH_REQ _ _ 10 (mkworld e1 (trace w) (logged w)) _
                   o1 (VDict d) e2 (encode_credentials _ _ Hsu Hsp) Hauth Hresp))).
  apply bind_raise. unfold store_session. cbn [py_getitem].
  rewrite Htok, Hacc, Hnoexp. reflexivity.
Qed.

Lemma py_le_trans (a : value) (t t' : float) :
  py_le a (VFloat t) = Ok true ->
  py_le (VFloat t) (VFloat t') = Ok true ->
  py_le a (VFloat t') = Ok true.
Proof.
  unfold py_le. simpl. destruct (as_num a) as [x|]; [|discriminate].
  intros H1 H2. injection H1 as H1. injection H2 as H2.
  f_equal. eapply xle_trans; eassumption.
Qed.

(** X6: a server that answers every re-authentication with a token whose
    expiry is not later than [t], while the clock never reads less than
    [t], never lets the read of the access token return: each refresh
    re-enters the read through [getResources], and whatever the bound on the
    nesting, the outcome is [RecursionError]. *)
Theorem accessToken_stale_server_recursion
    (t : float) (appId username password : value) :
  json_serialisable username = true ->
  json_serialisable password = true ->
  (forall e : W, exists t' e',
      time_time e = (t', e') /\ py_le (VFloat t) (VFloat t') = Ok true) ->
  (forall e : W, exists o e' resp token acc exp fga ug,
      urlopen (auth_request appId username password) e = (o, e') /\
      json_response o = Some resp /\
      py_getitem resp (KStr "token") = Ok token /\
      py_getitem resp (KStr "accountId") = Ok acc /\
      py_getitem resp (KStr "exp") = Ok exp /\
      py_getitem resp (KStr "functionalGroupAccounts") = Ok fga /\
      py_getitem resp (KStr "userGroups") = Ok ug /\
      py_le exp (VFloat t) = Ok true) ->
  forall fuel (self : gmap string value) (w : world W) exp,
    self !! "expiration" = Some exp ->
    self !! "_appId" = Some appId ->
    self !! "_username" = Some username ->
    self !! "_password" = Some password ->
    py_le exp (VFloat t) = Ok true ->
    fst (accessToken fuel (self, w)) = Raise RecursionError.
Proof.
  intros Hsu Hsp Hclock Hserver. induction fuel as [|fuel IH];
    intros self w exp Hexp Happ Husr Hpwd Hle; [reflexivity|].
  destruct (Hclock (env w)) as (t' & e1 & Ht & Htt').
  pose proof (py_le_trans _ _ _ Hle Htt') as Hnow.
  destruct (Hserver e1) as (o & e2 & resp & token & acc & exp' & fga & ug &
                            Hauth & Hresp & Htok & Hacc & Hexp' & Hfga & Hug & Hle').
  change (accessToken (S fuel)) with (accessToken_with (getResources_with (accessToken fuel))).
  unfold accessToken_with.
  rewrite (bind_ok _ _ _ _ _ (get_attr_some _ _ _ _ Hexp)).
  rewrite (bind_ok _ _ _ _ _ (io_run _ self _ _ _ (clock_run _ _ _ Ht))).
  rewrite Hnow, bind_lift_ok. cbn iota.
  set (self1 := <["userGroups" := ug]> (<["functionalGroupAccounts" := fga]>
                (<["expiration" := exp']> (<["accountId" := acc]>
                (<["_accessToken" := token]> self))))).
  set (w2 := mkworld e2 ((auth_request appId username password, o) :: trace w) (logged w)).
  destruct (accessToken fuel (self1, w2)) as [r s'] eqn:Hrec.
  assert (Hr : r = Raise RecursionError).
  { change r with (fst (r, s')). rewrite <- Hrec.
    apply (IH self1 w2 exp'); try exact Hle'; unfold self1; simplify_map_eq; reflexivity. }
  subst r.
  rewrite (bind_raise _ _ _ RecursionError s'); [reflexivity|].
  rewrite (bind_ok _ _ _ _ _ (get_attr_some _ _ _ _ Happ)).
  rewrite (bind_ok _ _ _ _ _ (get_attr_some _ _ _ _ Husr)).
  rewrite (bind_ok _ _ _ _ _ (get_attr_some _ _ _ _ Hpwd)).
  rewrite (bind_ok _ _ _ _ _
             (io_run _ self _ _ _
                (postRequest_json _AUTH_REQ _ _ 10 (mkworld e1 (trace w) (logged w)) _
                   o resp e2 (encode_credentials _ _ Hsu Hsp) Hauth Hresp))).
  rewrite (bind_ok _ _ _ _ _
             (store_session_ok resp token acc exp' fga ug self _ Htok Hacc Hexp' Hfga Hug)).
  fold self1. fold w2.
  apply bind_raise. unfold getResources_with.
  rewrite (bind_ok _ _ _ _ _
             (get_attr_some "_appId" self1 w2 appId
                ltac:(unfold self1; simplify_map_eq; reflexivity))).
  apply bind_raise. exact Hrec.
Qed.

End Lifecycle.

Lemma Glow_constructs_witness :
  exists self,
    Glow 1 (VStr "app") (VStr "user") (VStr "secret")
      (mock_world [auth_reply "T1" 2000; json_reply (VList example_descriptors)] 1000)
    = (Ok self,
       mkworld (mkmock [] 1000 (mkdatetime 2024 3 1 0 10 5 7))
         [(resource_request _RESOURCE_REQ (VStr "app") (VStr "T1"),
           json_reply (VList example_descriptors));
          (auth_request (VStr "app") (VStr "user") (VStr "secret"), auth_reply "T1" 2000)]
         []) /\
    self !! "_accessToken" = Some (VStr "T1") /\
    self !! "elecConsumptionId" = Some (VStr "E1") /\
    self !! "gasConsumptionId" = Some (VStr "G1").
Proof.
  destruct (Glow_constructs (H := mock_env) 0 (VStr "app") (VStr "user") (VStr "secret")
              (mock_world [auth_reply "T1" 2000; json_reply (VList example_descriptors)] 1000)
              (auth_reply "T1" 2000)
              (VDict [(KStr "token", VStr "T1"); (KStr "accountId", VStr "acc");
                      (KStr "exp", VInt 2000);
                      (KStr "functionalGroupAccounts", VList []);
                      (KStr "userGroups", VList [])])
              (mkmock [json_reply (VList example_descriptors)] 1000
                 (mkdatetime 2024 3 1 0 10 5 7))
              (VStr "T1") (VStr "acc") (VInt 2000) (VList []) (VList [])
              1000%float
              (mkmock [json_reply (VList example_descriptors)] 1000
                 (mkdatetime 2024 3 1 0 10 5 7))
              (json_reply (VList example_descriptors)) example_descriptors
              (mkmock [] 1000 (mkdatetime 2024 3 1 0 10 5 7)))
    as (self & Hrun & _ & _ & _ & Htok & _ & _ & _ & _ & He & Hg);
    try (vm_compute; reflexivity).
  exists self. repeat split; assumption.
Defined.

Lemma Glow_fails_on_listing_error_witness :
  fst (Glow 1 (VStr "app") (VStr "user") (VStr "secret")
         (mock_world [auth_reply "T1" 2000; HTTPError 503 "Service Unavailable"] 1000))
  = Raise TypeError.
Proof.
  refine (f_equal fst
            (Glow_fails_on_listing_error (H := mock_env) 0
               (VStr "app") (VStr "user") (VStr "secret")
               (mock_world [auth_reply "T1" 2000; HTTPError 503 "Service Unavailable"] 1000)
               (auth_reply "T1" 2000)
               (VDict [(KStr "token", VStr "T1"); (KStr "accountId", VStr "acc");
                       (KStr "exp", VInt 2000);
                       (KStr "functionalGroupAccounts", VList []);
                       (KStr "userGroups", VList [])])
               (mkmock [HTTPError 503 "Service Unavailable"] 1000
                  (mkdatetime 2024 3 1 0 10 5 7))
               (VStr "T1") (VStr "acc") (VInt 2000) (VList []) (VList [])
               1000%float
               (mkmock [HTTPError 503 "Service Unavailable"] 1000
                  (mkdatetime 2024 3 1 0 10 5 7))
               503 "Service Unavailable"
               (mkmock [] 1000 (mkdatetime 2024 3 1 0 10 5 7))
               _ _ _ _ _ _ _ _ _ _ _ _)); vm_compute; reflexivity.
Defined.

Lemma accessToken_refresh_rejected_witness :
  accessToken 1 (mock_session "T1" 100, mock_world [HTTPError 401 "Unauthorized"] 200)
  = (Raise TypeError,
     (mock_session "T1" 100,
      mkworld (mkmock [] 200 (mkdatetime 2024 3 1 0 10 5 7))
        [(auth_request (VStr "app") (VStr "user") (VStr "secret"),
          HTTPError 401 "Unauthorized")]
        ["code=401, reason=Unauthorized"])).
Proof.
  refine (accessToken_refresh_rejected (H := mock_env) 0 (mock_session "T1" 100)
            (mock_world [HTTPError 401 "Unauthorized"] 200)
            (VInt 100) (VStr "app") (VStr "user") (VStr "secret") 200%float
            (mkmock [HTTPError 401 "Unauthorized"] 200 (mkdatetime 2024 3 1 0 10 5 7))
            401 "Unauthorized" (mkmock [] 200 (mkdatetime 2024 3 1 0 10 5 7))
            _ _ _ _ _ _ _ _ _); vm_compute; reflexivity.
Defined.

Lemma accessToken_refresh_not_atomic_witness :
  exists self' : gmap string value,
    fst (accessToken 1
           (mock_session "T1" 100,
            mock_world [json_reply (VDict [(KStr "token", VStr "T2");
                                           (KStr "accountId", VStr "acc2")])] 200))
    = Raise (KeyError (KStr "exp")) /\
    self' !! "_accessToken" = Some (VStr "T2") /\
    self' !! "expiration" = Some (VInt 100).
Proof.
  destruct (accessToken_refresh_not_atomic (H := mock_env) 0 (mock_session "T1" 100)
              (mock_world [json_reply (VDict [(KStr "token", VStr "T2");
                                              (KStr "accountId", VStr "acc2")])] 200)
              (VInt 100) (VStr "app") (VStr "user") (VStr "secret") 200%float
              (mkmock [json_reply (VDict [(KStr "token", VStr "T2");
                                          (KStr "accountId", VStr "acc2")])] 200
                 (mkdatetime 2024 3 1 0 10 5 7))
              (json_reply (VDict [(KStr "token", VStr "T2"); (KStr "accountId", VStr "acc2")]))
              [(KStr "token", VStr "T2"); (KStr "accountId", VStr "acc2")]
              (mkmock [] 200 (mkdatetime 2024 3 1 0 10 5 7))
              (VStr "T2") (VStr "acc2"))
    as (self' & Hrun & Htok & _ & Hexp); try (vm_compute; reflexivity).
  exists self'. rewrite Hrun. repeat split; assumption.
Defined.

Lemma accessToken_stale_server_recursion_witness :
  fst (accessToken (H := fixed_env (auth_reply "T2" 150) 200) 7
         (mock_session "T1" 100, mkworld tt [] []))
  = Raise RecursionError.
Proof.
  refine (accessToken_stale_server_recursion (H := fixed_env (auth_reply "T2" 150) 200)
            200%float (VStr "app") (VStr "user") (VStr "secret") _ _ _ _
            7%nat (mock_session "T1" 100) (mkworld tt [] []) (VInt 100) _ _ _ _ _);
    try (vm_compute; reflexivity).
  - intros []. exists 200%float, tt. split; vm_compute; reflexivity.
  - intros []. exists (auth_reply "T2" 150), tt.
    exists (VDict [(KStr "token", VStr "T2"); (KStr "accountId", VStr "acc");
                   (KStr "exp", VInt 150);
                   (KStr "functionalGroupAccounts", VList []);
                   (KStr "userGroups", VList [])]).
    exists (VStr "T2"), (VStr "acc"), (VInt 150), (VList []), (VList []).
    repeat split; vm_compute; reflexivity.
Defined.

(** ** The listing loop and the accessors, beyond the claims *)

Section ListingEdge.
Context {W : Type} `{Environment W}.

Lemma records_ids_refl (self : gmap string value) : records_ids [] self self.
Proof. repeat split; reflexivity. Qed.

(** The loop on a descriptor followed by the loop on the rest. *)
Lemma records_ids_step (kv : list (key * value)) (ds : list value) cl r
    (self self' : gmap string value) :
  dict_get kv (KStr "classifier") = Some cl ->
  dict_get kv (KStr "resourceId") = Some r ->
  forallb is_descriptor ds = true ->
  records_ids ds
    (let self1 := if py_eq_str cl "electricity.consumption"
                  then <["elecConsumptionId" := r]> self else self in
     if py_eq_str cl "gas.consumption"
     then <["gasConsumptionId" := r]> self1 else self1) self' ->
  records_ids (VDict kv :: ds) self self'.
Proof.
  intros Hc Hr Hds (He & Hg & Ho).
  unfold records_ids. rewrite !(last_id_cons _ kv ds cl r Hc Hr Hds).
  split; [|split].
  - rewrite He. destruct (last_id "electricity.consumption" ds); [reflexivity|].
    destruct (py_eq_str cl "electricity.consumption"), (py_eq_str cl "gas.consumption");
      simplify_map_eq; reflexivity.
  - rewrite Hg. destruct (last_id "gas.consumption" ds); [reflexivity|].
    destruct (py_eq_str cl "electricity.consumption"), (py_eq_str cl "gas.consumption");
      simplify_map_eq; reflexivity.
  - intros name Hne Hng. rewrite (Ho name Hne Hng).
    destruct (py_eq_str cl "electricity.consumption"), (py_eq_str cl "gas.consumption");
      simplify_map_eq; reflexivity.
Qed.

Lemma record_ids_stops (ds : list value) (x : value) (rest : list value) (e : exn)
    (self : gmap string value) (w : world W) :
  forallb is_descriptor ds = true ->
  py_getitem x (KStr "classifier") = Raise e ->
  exists self',
    record_ids (ds ++ x :: rest) (self, w) = (Raise e, (self', w)) /\
    records_ids ds self self'.
Proof.
  revert self. induction ds as [|d ds IH]; intros self Hds Hx.
  - exists self. split; [|apply records_ids_refl].
    cbn [app record_ids]. rewrite Hx. reflexivity.
  - simpl in Hds. apply andb_prop in Hds as [Hd Hds].
    destruct (descriptor_inv d Hd) as (kv & cl & r & -> & Hc & Hr).
    cbn [app]. rewrite (record_ids_cons kv (ds ++ x :: rest) cl r self w Hc Hr).
    match goal with |- context [record_ids _ (?s, w)] =>
      destruct (IH s Hds Hx) as (self' & Hrun & Hids) end.
    exists self'. split; [exact Hrun|].
    apply (records_ids_step kv ds cl r self self' Hc Hr Hds Hids).
Qed.

(** X7: [getResources] is not atomic.  When the listing is a list whose
    first items are descriptors and whose next item has no classifier, the
    call raises at that item and returns no list, but the identifiers of
    the descriptors before it have been recorded. *)
Theorem getResources_partial_update
    fuel (self self1 : gmap string value) (w w1 : world W)
    appId token o ds x rest e e2 :
  self !! "_appId" = Some appId ->
  accessToken fuel (self, w) = (Ok token, (self1, w1)) ->
  urlopen (resource_request _RESOURCE_REQ appId token) (env w1) = (o, e2) ->
  json_response o = Some (VList (ds ++ x :: rest)) ->
  forallb is_descriptor ds = true ->
  py_getitem x (KStr "classifier") = Raise e ->
  exists self2,
    getResources fuel (self, w)
    = (Raise e,
       (self2, mkworld e2 ((resource_request _RESOURCE_REQ appId token, o) :: trace w1)
                 (logged w1))) /\
    records_ids ds self1 self2.
Proof.
  intros Happ Htok Hurl Hjson Hds Hx. unfold getResources, getResources_with.
  rewrite (bind_ok _ _ _ _ _ (get_attr_some _ _ _ _ Happ)).
  rewrite (bind_ok _ _ _ _ _ Htok).
  rewrite (bind_ok _ _ _ _ _
             (io_run _ self1 _ _ _
                (postRequest_json _RESOURCE_REQ _ None 10 w1 None o _ e2 eq_refl Hurl Hjson))).
  simpl py_iter. rewrite bind_lift_ok.
  match goal with |- context [bind (record_ids _) _ (self1, ?w')] =>
    destruct (record_ids_stops ds x rest e self1 w' Hds Hx) as (self2 & Hrun & Hids) end.
  exists self2. split; [|exact Hids].
  apply bind_raise. exact Hrun.
Qed.

End ListingEdge.

Lemma getResources_partial_update_witness :
  exists self2 : gmap string value,
    fst (getResources 1
           (mock_session "T1" 2000,
            mock_world [json_reply (VList [descriptor "gas.consumption" "G1";
                                           VDict [(KStr "resourceId", VStr "E1")];
                                           descriptor "electricity.consumption" "E2"])] 1000))
    = Raise (KeyError (KStr "classifier")) /\
    self2 !! "gasConsumptionId" = Some (VStr "G1") /\
    self2 !! "elecConsumptionId" = None.
Proof.
  destruct (getResources_partial_update (H := mock_env) 1
              (mock_session "T1" 2000) (mock_session "T1" 2000)
              (mock_world [json_reply (VList [descriptor "gas.consumption" "G1";
                                              VDict [(KStr "resourceId", VStr "E1")];
                                              descriptor "electricity.consumption" "E2"])] 1000)
              (mock_world [json_reply (VList [descriptor "gas.consumption" "G1";
                                              VDict [(KStr "resourceId", VStr "E1")];
                                              descriptor "electricity.consumption" "E2"])] 1000)
              (VStr "app") (VStr "T1")
              (json_reply (VList [descriptor "gas.consumption" "G1";
                                  VDict [(KStr "resourceId", VStr "E1")];
                                  descriptor "electricity.consumption" "E2"]))
              [descriptor "gas.consumption" "G1"]
              (VDict [(KStr "resourceId", VStr "E1")])
              [descriptor "electricity.consumption" "E2"]
              (KeyError (KStr "classifier"))
              (mkmock [] 1000 (mkdatetime 2024 3 1 0 10 5 7)))
    as (self2 & Hrun & He & Hg & _); try (vm_compute; reflexivity).
  exists self2. rewrite Hrun. split; [reflexivity|]. split; [exact Hg | exact He].
Defined.

Section AccessorEdge.
Context {W : Type} `{Environment W}.

(** X8: [getElecCurrent] fetches the current electricity resource, then the
    electricity tariff; for every answer to the two requests the result is
    the current-resource document with [rate] taken from plan detail 0,
    [standing] from plan detail 1 and [cost] equal to [toCost] of the rate,
    the value of the first data point and the units; the data is left as it
    came. *)
Theorem getElecCurrent_combines
    fuel (self self1 self2 : gmap string value) (w w1 w2 : world W)
    id id2 head1 head2 o1 cd e2 o2 tariff e4
    p v drest units pd rate standing :
  self !! "elecConsumptionId" = Some (VStr id) ->
  resource_head fuel (self, w) = (Ok head1, (self1, w1)) ->
  answers (env w1) (head_request (resource_url id "/current") head1) o1 (VDict cd) e2 ->
  resource_head fuel
    (self1,
     mkworld e2 ((head_request (resource_url id "/current") head1, o1) :: trace w1)
       (logged w1))
  = (Ok head2, (self2, w2)) ->
  self2 !! "elecConsumptionId" = Some (VStr id2) ->
  answers (env w2) (head_request (resource_url id2 "/tariff") head2) o2 tariff e4 ->
  dict_get cd (KStr "data") = Some (VList (p :: drest)) ->
  py_getitem p (KInt 1) = Ok v ->
  dict_get cd (KStr "units") = Some units ->
  getpath tariff [KStr "data"; KInt 0; KStr "plan"; KInt 0; KStr "planDetail"] = Ok pd ->
  getpath pd [KInt 0; KStr "rate"] = Ok rate ->
  getpath pd [KInt 1; KStr "standing"] = Ok standing ->
  getElecCurrent fuel (self, w)
  = (Ok (VDict (dict_set (dict_set (dict_set cd (KStr "rate") rate)
                            (KStr "standing") standing)
                  (KStr "cost") (toCost rate v units))),
     (self2,
      mkworld e4 ((head_request (resource_url id2 "/tariff") head2, o2) :: trace w2)
        (logged w2))) /\
  dict_get (dict_set (dict_set (dict_set cd (KStr "rate") rate)
                        (KStr "standing") standing)
              (KStr "cost") (toCost rate v units)) (KStr "data")
  = Some (VList (p :: drest)).
Proof.
  intros Hid Hh1 Ha1 Hh2 Hid2 Ha2 Hdata Hv Hunits Hpd Hrate Hstanding.
  split; [|dict_simpl; exact Hdata].
  unfold getElecCurrent.
  rewrite (bind_ok _ _ _ _ _ (get_attr_some _ _ _ _ Hid)).
  rewrite (bind_ok _ _ _ _ _ (getCurResource_answered fuel _ _ _ _ _ _ _ _ _ Hh1 Ha1)).
  unfold getElecTariff.
  rewrite (bind_ok _ _ _ _ _ (fetch_sub_answered fuel _ _ _ _ _ _ _ _ _ _ _ Hh2 Hid2 Ha2)).
  unfold lift.
  rewrite (add_cost_ok cd tariff pd rate standing p v units drest
             Hpd Hrate Hstanding Hdata Hv Hunits).
  reflexivity.
Qed.

Lemma add_cost_none (tariff : value) : exists e, add_cost VNone tariff = Raise e.
Proof.
  unfold add_cost.
  destruct (getpath tariff _) as [pd|e]; [|eauto]. cbn [rbind].
  destruct (getpath pd _) as [rate|e]; [|eauto]. cbn [rbind]. eauto.
Qed.

(** X9: the derived accessor does not pass a transport failure on as
    [None].  When the current-resource request is answered with an HTTP
    error, [getElecCurrent] still fetches the tariff and then raises: it
    never returns a result, whatever the tariff fetch gives. *)
Theorem getElecCurrent_raises_on_http_error
    fuel (self self1 : gmap string value) (w w1 : world W)
    id head code reason e2 r s2 :
  self !! "elecConsumptionId" = Some (VStr id) ->
  resource_head fuel (self, w) = (Ok head, (self1, w1)) ->
  urlopen (head_request (resource_url id "/current") head) (env w1)
    = (HTTPError code reason, e2) ->
  getElecTariff fuel
    (self1,
     mkworld e2
       ((head_request (resource_url id "/current") head, HTTPError code reason) :: trace w1)
       (("code=" +:+ pretty code +:+ ", reason=" +:+ reason) :: logged w1))
  = (r, s2) ->
  exists e, getElecCurrent fuel (self, w) = (Raise e, s2).
Proof.
  intros Hid Hhead Hurl Htariff. unfold getElecCurrent.
  rewrite (bind_ok _ _ _ _ _ (get_attr_some _ _ _ _ Hid)).
  assert (Hcur : getCurResource fuel (VStr id) (self, w)
                 = (Ok VNone,
                    (self1,
                     mkworld e2
                       ((head_request (resource_url id "/current") head,
                         HTTPError code reason) :: trace w1)
                       (("code=" +:+ pretty code +:+ ", reason=" +:+ reason) :: logged w1)))).
  { unfold getCurResource. rewrite (bind_ok _ _ _ _ _ Hhead).
    simpl str_add. rewrite bind_lift_ok. apply io_run.
    apply (postRequest_http_none (resource_url id "/current") (Some head) None 10 w1 None
             code reason e2 eq_refl Hurl). }
  rewrite (bind_ok _ _ _ _ _ Hcur).
  destruct r as [tariff|e].
  - rewrite (bind_ok _ _ _ _ _ Htariff).
    destruct (add_cost_none tariff) as [e He]. exists e. unfold lift. rewrite He. reflexivity.
  - exists e. apply bind_raise. exact Htariff.
Qed.

(** X10: the plain accessors pass a transport failure on as [None].  When
    the request is answered with an HTTP error, [getCurResource],
    [getReading] and the tariff and meter-read properties return [None]
    without raising, and the status line is logged. *)
Theorem plain_accessors_return_None_on_http_error
    fuel (self self1 : gmap string value) (w w1 : world W) head id code reason e2 :
  resource_head fuel (self, w) = (Ok head, (self1, w1)) ->
  (urlopen (head_request (resource_url id "/current") head) (env w1)
     = (HTTPError code reason, e2) ->
   getCurResource fuel (VStr id) (self, w)
   = (Ok VNone,
      (self1,
       mkworld e2
         ((head_request (resource_url id "/current") head, HTTPError code reason) :: trace w1)
         (("code=" +:+ pretty code +:+ ", reason=" +:+ reason) :: logged w1)))) /\
  (forall dfrom dto period offset func,
     urlopen (head_request (readings_url id dfrom dto period offset func) head) (env w1)
       = (HTTPError code reason, e2) ->
     getReading fuel (VStr id) dfrom dto period offset func (self, w)
     = (Ok VNone,
        (self1,
         mkworld e2
           ((head_request (readings_url id dfrom dto period offset func) head,
             HTTPError code reason) :: trace w1)
           (("code=" +:+ pretty code +:+ ", reason=" +:+ reason) :: logged w1)))) /\
  (forall attr sub,
     self1 !! attr = Some (VStr id) ->
     urlopen (head_request (resource_url id sub) head) (env w1)
       = (HTTPError code reason, e2) ->
     fetch_sub fuel attr sub (self, w)
     = (Ok VNone,
        (self1,
         mkworld e2
           ((head_request (resource_url id sub) head, HTTPError code reason) :: trace w1)
           (("code=" +:+ pretty code +:+ ", reason=" +:+ reason) :: logged w1)))).
Proof.
  intros Hhead. split; [|split].
  - intros Hurl. unfold getCurResource. rewrite (bind_ok _ _ _ _ _ Hhead).
    simpl str_add. rewrite bind_lift_ok. apply io_run.
    apply (postRequest_http_none (resource_url id "/current") (Some head) None 10 w1 None
             code reason e2 eq_refl Hurl).
  - intros dfrom dto period offset func Hurl.
    unfold getReading. rewrite (bind_ok _ _ _ _ _ Hhead).
    simpl str_add. rewrite bind_lift_ok. apply io_run.
    apply (postRequest_http_none (readings_url id dfrom dto period offset func)
             (Some head) None 10 w1 None code reason e2 eq_refl Hurl).
  - intros attr sub Hid Hurl. unfold fetch_sub. rewrite (bind_ok _ _ _ _ _ Hhead).
    rewrite (bind_ok _ _ _ _ _ (get_attr_some _ _ _ _ Hid)).
    simpl str_add. rewrite bind_lift_ok. apply io_run.
    apply (postRequest_http_none (resource_url id sub) (Some head) None 10 w1 None
             code reason e2 eq_refl Hurl).
Qed.

End AccessorEdge.

Lemma getElecCurrent_combines_witness :
  exists result,
    fst (getElecCurrent 1
           (mock_session_ids "T1" 2000,
            mock_world [reading_reply 1709251200 500 "W"; tariff_reply 3.5 25] 1000))
    = Ok result /\
    py_getitem result (KStr "rate") = Ok (VFloat 3.5) /\
    py_getitem result (KStr "standing") = Ok (VFloat 25) /\
    py_getitem result (KStr "cost") = Ok (VFloat 1.75).
Proof.
  pose (today := mkdatetime 2024 3 1 0 10 5 7).
  pose (head := [("applicationId", VStr "app"); ("token", VStr "T1")]).
  pose (req1 := head_request (resource_url "E1" "/current") head).
  destruct (getElecCurrent_combines (H := mock_env) 1
              (mock_session_ids "T1" 2000) (mock_session_ids "T1" 2000)
              (mock_session_ids "T1" 2000)
              (mock_world [reading_reply 1709251200 500 "W"; tariff_reply 3.5 25] 1000)
              (mock_world [reading_reply 1709251200 500 "W"; tariff_reply 3.5 25] 1000)
              (mkworld (mkmock [tariff_reply 3.5 25] 1000 today)
                 [(req1, reading_reply 1709251200 500 "W")] [])
              "E1" "E1" head head
              (reading_reply 1709251200 500 "W")
              [(KStr "data", VList [VList [VInt 1709251200; VInt 500]]);
               (KStr "units", VStr "W")]
              (mkmock [tariff_reply 3.5 25] 1000 today)
              (tariff_reply 3.5 25)
              (VDict [(KStr "data",
                       VList [VDict [(KStr "plan",
                                      VList [VDict [(KStr "planDetail",
                                                     VList [VDict [(KStr "rate", VFloat 3.5)];
                                                            VDict [(KStr "standing", VFloat 25)]])]])]])])
              (mkmock [] 1000 today)
              (VList [VInt 1709251200; VInt 500]) (VInt 500) [] (VStr "W")
              (VList [VDict [(KStr "rate", VFloat 3.5)]; VDict [(KStr "standing", VFloat 25)]])
              (VFloat 3.5) (VFloat 25))
    as [Hrun _]; try (vm_compute; reflexivity); try (split; vm_compute; reflexivity).
  eexists. rewrite Hrun. split; [reflexivity|]. vm_compute. auto.
Defined.

Lemma getElecCurrent_raises_on_http_error_witness :
  exists e,
    fst (getElecCurrent 1
           (mock_session_ids "T1" 2000,
            mock_world [HTTPError 503 "Service Unavailable"; tariff_reply 3.5 25] 1000))
    = Raise e.
Proof.
  pose (today := mkdatetime 2024 3 1 0 10 5 7).
  pose (head := [("applicationId", VStr "app"); ("token", VStr "T1")]).
  destruct (getElecCurrent_raises_on_http_error (H := mock_env) 1
              (mock_session_ids "T1" 2000) (mock_session_ids "T1" 2000)
              (mock_world [HTTPError 503 "Service Unavailable"; tariff_reply 3.5 25] 1000)
              (mock_world [HTTPError 503 "Service Unavailable"; tariff_reply 3.5 25] 1000)
              "E1" head 503 "Service Unavailable"
              (mkmock [tariff_reply 3.5 25] 1000 today)
              _ _ eq_refl eq_refl eq_refl (surjective_pairing _))
    as [e Hrun].
  exists e. rewrite Hrun. reflexivity.
Defined.

Lemma plain_accessors_return_None_on_http_error_witness :
  fst (getCurResource 1 (VStr "E1")
         (mock_session_ids "T1" 2000, mock_world [HTTPError 404 "Not Found"] 1000))
  = Ok VNone /\
  fst (getElecTariff 1
         (mock_session_ids "T1" 2000, mock_world [HTTPError 404 "Not Found"] 1000))
  = Ok VNone.
Proof.
  pose (today := mkdatetime 2024 3 1 0 10 5 7).
  pose (head := [("applicationId", VStr "app"); ("token", VStr "T1")]).
  destruct (plain_accessors_return_None_on_http_error (H := mock_env) 1
              (mock_session_ids "T1" 2000) (mock_session_ids "T1" 2000)
              (mock_world [HTTPError 404 "Not Found"] 1000)
              (mock_world [HTTPError 404 "Not Found"] 1000)
              head "E1" 404 "Not Found" (mkmock [] 1000 today) eq_refl)
    as (Hcur & _ & Hsub).
  split.
  - rewrite (Hcur eq_refl). reflexivity.
  - unfold getElecTariff. rewrite (Hsub "elecConsumptionId" "/tariff" eq_refl eq_refl).
    reflexivity.
Defined.

(** ** What no operation does *)

Lemma string_app_assoc (a b c : string) : (a +:+ b) +:+ c = a +:+ (b +:+ c).
Proof.
  induction a as [|x a IH]; [reflexivity|].
  change (String x ((a +:+ b) +:+ c) = String x (a +:+ (b +:+ c))). f_equal. exact IH.
Qed.

Lemma prefix_app (a b : string) : String.prefix a (a +:+ b) = true.
Proof.
  induction a as [|x a IH]; [destruct b; reflexivity|].
  change (String.prefix (String x a) (String x (a +:+ b)) = true). simpl.
  destruct (ascii_dec x x) as [_|Hne]; [exact IH | contradiction].
Qed.

Section Frame.
Context {W : Type} `{Environment W}.

(** Where the request of a call of [postRequest] comes from. *)
Lemma postRequest_request url head body timeout (w : world W) r w' :
  postRequest url head body timeout w = (r, w') ->
  (encode_body body = Raise TypeError /\ w' = w) \/
  exists data o,
    encode_body body = Ok data /\
    trace w' = (mkrequest url (add_headers head) data timeout, o) :: trace w.
Proof.
  unfold postRequest, bind, lift, do_urlopen.
  destruct (encode_body body) as [data|e] eqn:Henc.
  - destruct (urlopen (mkrequest url (add_headers head) data timeout) (env w)) as [o e1].
    intros E. right. exists data, o. split; [reflexivity|].
    destruct o as [[ct|] b|code reason|e]; simpl in E.
    + destruct (str_contains "application/json" ct); [destruct (parsed b)|];
        injection E as _ <-; reflexivity.
    + injection E as _ <-. reflexivity.
    + injection E as _ <-. reflexivity.
    + injection E as _ <-. reflexivity.
  - intros E. left. injection E as _ <-. split; [|reflexivity].
    unfold encode_body in Henc. destruct body as [[|kv b]|]; try discriminate.
    destruct (forallb _ _); [discriminate|]. injection Henc as <-. reflexivity.
Qed.

Variable R : gmap string value * world W -> gmap string value * world W -> Prop.
Hypothesis R_refl : forall s, R s s.
Hypothesis R_trans : forall s1 s2 s3, R s1 s2 -> R s2 s3 -> R s1 s3.
Hypothesis R_set : forall name v self w,
  In name session_attrs -> R (self, w) (<[name := v]> self, w).
Hypothesis R_post : forall url head body self w r w',
  url = _AUTH_REQ \/ (String.prefix _RESOURCE_REQ url = true /\ body = None) ->
  postRequest url head body 10 w = (r, w') -> R (self, w) (self, w').
Hypothesis R_env : forall self w e, R (self, w) (self, mkworld e (trace w) (logged w)).

Lemma preserves_bind {A B} (m : M (gmap string value * world W) A)
    (k : A -> M (gmap string value * world W) B) :
  preserves R m -> (forall a, preserves R (k a)) -> preserves R (bind m k).
Proof.
  intros Hm Hk s r s' Hrun.
  destruct (bind_inv m k s r s' Hrun) as [(a & s1 & Hm1 & Hk1)|(e & Hm1 & _)].
  - eapply R_trans; [eapply Hm, Hm1 | eapply Hk, Hk1].
  - eapply Hm, Hm1.
Qed.

Lemma preserves_ret {A} (a : A) : preserves R (ret a).
Proof. intros s r s' E. injection E as _ <-. apply R_refl. Qed.

Lemma preserves_raise {A} (e : exn) : preserves R (raise (A := A) e).
Proof. intros s r s' E. injection E as _ <-. apply R_refl. Qed.

Lemma preserves_lift {A} (x : result A) : preserves R (lift x).
Proof. intros s r s' E. injection E as _ <-. apply R_refl. Qed.

Lemma preserves_get_attr (name : string) : preserves R (get_attr name).
Proof.
  intros s r s' E. unfold get_attr in E.
  destruct (fst s !! name); injection E as _ <-; apply R_refl.
Qed.

Lemma preserves_set_attr (name : string) (v : value) :
  In name session_attrs -> preserves R (set_attr name v).
Proof. intros Hin [self w] r s' E. injection E as _ <-. apply R_set, Hin. Qed.

Lemma preserves_post url head body :
  url = _AUTH_REQ \/ (String.prefix _RESOURCE_REQ url = true /\ body = None) ->
  preserves R (io (postRequest url head body 10)).
Proof.
  intros Hurl [self w] r s' E. unfold io in E. simpl in E.
  destruct (postRequest url head body 10 w) as [r0 w'] eqn:Hrun. injection E as _ <-.
  exact (R_post url head body self w r0 w' Hurl Hrun).
Qed.

Lemma preserves_clock : preserves R (io clock).
Proof.
  intros [self w] r s' E. unfold io, clock in E. simpl in E.
  destruct (time_time (env w)). injection E as _ <-. apply R_env.
Qed.

Lemma preserves_today : preserves R (io today).
Proof.
  intros [self w] r s' E. unfold io, today in E. simpl in E.
  destruct (datetime_today (env w)). injection E as _ <-. apply R_env.
Qed.

(** A request below the resource endpoint, its address built from [id]. *)
Lemma preserves_resource_post (id : value) (sub : string) head :
  preserves R (url <- lift (str_add (_RESOURCE_REQ +:+ "/") id) ;;
               io (postRequest (url +:+ sub) head None 10)).
Proof.
  intros s r s' E. unfold bind, lift in E.
  destruct id; cbn [str_add] in E; try (injection E as _ <-; apply R_refl).
  eapply preserves_post; [|exact E]. right. split; [|reflexivity].
  rewrite !string_app_assoc. apply prefix_app.
Qed.

Lemma preserves_resource_post_then {A} (id : value) (sub : string) head
    (k : value -> M (gmap string value * world W) A) :
  (forall x, preserves R (k x)) ->
  preserves R (url <- lift (str_add (_RESOURCE_REQ +:+ "/") id) ;;
               x <- io (postRequest (url +:+ sub) head None 10) ;;
               k x).
Proof.
  intros Hk s r s' E. unfold bind at 1 in E. unfold lift in E.
  destruct id; cbn [str_add] in E; try (injection E as _ <-; apply R_refl).
  revert E. apply preserves_bind; [|exact Hk].
  apply preserves_post. right. split; [|reflexivity].
  rewrite !string_app_assoc. apply prefix_app.
Qed.

Ltac frame_step :=
  first [ apply preserves_ret | apply preserves_raise | apply preserves_lift
        | apply preserves_get_attr
        | apply preserves_set_attr; unfold session_attrs; simpl;
          repeat (first [left; reflexivity | right])
        | apply preserves_clock | apply preserves_today
        | apply preserves_resource_post
        | apply preserves_resource_post_then; intros ?
        | apply preserves_post; first [left; reflexivity | right; split; reflexivity]
        | assumption
        | apply preserves_bind; [|intros ?] ].

Lemma preserves_record_ids (rs : list value) : preserves R (record_ids rs).
Proof.
  induction rs as [|x rs IH]; cbn [record_ids]; [apply preserves_ret|].
  repeat first [ match goal with |- preserves R (if ?b then _ else _) => destruct b end
               | frame_step ].
Qed.

Lemma preserves_store_session (resp : value) : preserves R (store_session resp).
Proof. unfold store_session. repeat frame_step. Qed.

Lemma preserves_getResources_with (accessToken : M (gmap string value * world W) value) :
  preserves R accessToken -> preserves R (getResources_with accessToken).
Proof.
  intros Htok. unfold getResources_with.
  repeat first [apply preserves_record_ids | frame_step].
Qed.

Lemma preserves_accessToken_with (getResources : M (gmap string value * world W) value) :
  preserves R getResources -> preserves R (accessToken_with getResources).
Proof.
  intros Hgr. unfold accessToken_with.
  repeat frame_step.
  match goal with |- preserves R (if ?b then _ else _) => destruct b end;
    repeat first [apply preserves_store_session | frame_step].
Qed.

Lemma preserves_accessToken (fuel : nat) : preserves R (accessToken fuel).
Proof.
  induction fuel as [|fuel IH]; [apply preserves_raise|].
  apply preserves_accessToken_with, preserves_getResources_with, IH.
Qed.

Lemma preserves_getResources (fuel : nat) : preserves R (getResources fuel).
Proof. apply preserves_getResources_with, preserves_accessToken. Qed.

Lemma preserves_resource_head (fuel : nat) : preserves R (resource_head fuel).
Proof. unfold resource_head. pose proof (preserves_accessToken fuel). repeat frame_step. Qed.

Lemma preserves_getCurResource (fuel : nat) (id : value) : preserves R (getCurResource fuel id).
Proof. unfold getCurResource. pose proof (preserves_resource_head fuel). repeat frame_step. Qed.

Lemma preserves_getReading fuel id dfrom dto period offset func :
  preserves R (getReading fuel id dfrom dto period offset func).
Proof. unfold getReading. pose proof (preserves_resource_head fuel). repeat frame_step. Qed.

Lemma preserves_fetch_sub (fuel : nat) (attr sub : string) : preserves R (fetch_sub fuel attr sub).
Proof. unfold fetch_sub. pose proof (preserves_resource_head fuel). repeat frame_step. Qed.

Lemma preserves_run (fuel : nat) (c : call) : preserves R (run fuel c).
Proof.
  pose proof (preserves_resource_head fuel).
  pose proof (fun id => preserves_getCurResource fuel id).
  pose proof (fun a s => preserves_fetch_sub fuel a s).
  pose proof (fun id a b c d e => preserves_getReading fuel id a b c d e).
  destruct c; simpl;
    [ apply preserves_accessToken | apply preserves_getResources | apply preserves_getReading
    | apply preserves_getCurResource | | | | | | ];
    unfold getElecCurrent, getGasCurrent, getElecTariff, getGasTariff,
           getElecMeterRead, getGasMeterRead;
    repeat frame_step.
Qed.

(** The constructor also assigns the credentials. *)
Lemma preserves_init fuel appId username password :
  (forall name v self w, R (self, w) (<[name := v]> self, w)) ->
  preserves R (__init__ fuel appId username password).
Proof.
  intros R_any. unfold __init__. pose proof (preserves_getResources fuel).
  assert (Hset : forall name v, preserves R (set_attr name v)).
  { intros name v [self w] r s' E. injection E as _ <-. apply R_any. }
  repeat first [apply preserves_store_session | apply Hset | frame_step].
  match goal with |- preserves R (if ?b then _ else _) => destruct b end; repeat frame_step.
Qed.

End Frame.

Section NeverDone.
Context {W : Type} `{Environment W}.

Lemma issued_refl (s : gmap string value * world W) : issued_api_requests s s.
Proof. exists []. split; [reflexivity | constructor]. Qed.

Lemma issued_trans (s1 s2 s3 : gmap string value * world W) :
  issued_api_requests s1 s2 -> issued_api_requests s2 s3 -> issued_api_requests s1 s3.
Proof.
  intros (l1 & H1 & F1) (l2 & H2 & F2). exists (l2 ++ l1)%list.
  split; [rewrite H2, H1; apply app_assoc | apply Forall_app; auto].
Qed.

Lemma issued_post url head body (self : gmap string value) (w : world W) r w' :
  url = _AUTH_REQ \/ (String.prefix _RESOURCE_REQ url = true /\ body = None) ->
  postRequest url head body 10 w = (r, w') ->
  issued_api_requests (self, w) (self, w').
Proof.
  intros Hurl Hrun.
  destruct (postRequest_request _ _ _ _ _ _ _ Hrun) as [[_ ->]|(data & o & Henc & Ht)];
    [apply issued_refl|].
  exists [(mkrequest url (add_headers head) data 10, o)]. split; [exact Ht|].
  constructor; [|constructor]. split; [reflexivity|]. split; [left; reflexivity|].
  cbn [fst req_url req_data]. destruct Hurl as [->|[Hp ->]]; [left; reflexivity|].
  right. split; [exact Hp|]. injection Henc as <-. reflexivity.
Qed.

(** X11: no operation on a constructed instance touches an attribute other
    than the token, its expiry, the three account fields and the two
    resource identifiers; in particular the credentials stay as the
    constructor stored them, whether the operation returns or raises. *)
Theorem operations_keep_other_attributes
    fuel (c : call) (s s' : gmap string value * world W) r (name : string) :
  run fuel c s = (r, s') ->
  ~ In name session_attrs ->
  fst s' !! name = fst s !! name.
Proof.
  intros Hrun Hname.
  refine (preserves_run same_outside_session _ _ _ _ _ fuel c s r s' Hrun name Hname).
  - intros s0 n _. reflexivity.
  - intros s1 s2 s3 H12 H23 n Hn. rewrite (H23 n Hn). apply H12, Hn.
  - intros n v self w Hin n' Hn'. cbn [fst].
    apply lookup_insert_ne. intros ->. exact (Hn' Hin).
  - intros url head body self w r0 w0 _ _ n _. reflexivity.
  - intros self w e n _. reflexivity.
Qed.

(** X12: every request an operation issues, the constructor included, has
    timeout 10, announces JSON, and either goes to the authentication
    endpoint or goes to an address below the resource endpoint and carries
    no data: the password is sent nowhere else. *)
Theorem operations_issue_api_requests fuel :
  (forall (c : call) (s s' : gmap string value * world W) r,
     run fuel c s = (r, s') ->
     exists l, trace (snd s') = (l ++ trace (snd s))%list /\
               Forall (fun ro => api_request (fst ro)) l) /\
  (forall appId username password (w w' : world W) r,
     Glow fuel appId username password w = (r, w') ->
     exists l, trace w' = (l ++ trace w)%list /\
               Forall (fun ro => api_request (fst ro)) l).
Proof.
  split.
  - intros c s s' r Hrun.
    refine (preserves_run issued_api_requests issued_refl issued_trans _ issued_post _
              fuel c s r s' Hrun).
    + intros n v self w Hin. exists []. split; [reflexivity | constructor].
    + intros self w e. exists []. split; [reflexivity | constructor].
  - intros appId username password w w' r Hrun. unfold Glow in Hrun.
    destruct (__init__ fuel appId username password (∅, w)) as [r0 [self w0]] eqn:Hinit.
    assert (Hw : w0 = w') by (destruct r0; injection Hrun as _ <-; reflexivity).
    subst w0.
    refine (preserves_init issued_api_requests issued_refl issued_trans _ issued_post _
              fuel appId username password _ (∅, w) r0 (self, w') Hinit).
    + intros n v self0 w0 Hin. exists []. split; [reflexivity | constructor].
    + intros self0 w0 e. exists []. split; [reflexivity | constructor].
    + intros n v self0 w0. exists []. split; [reflexivity | constructor].
Qed.

End NeverDone.

Lemma operations_keep_other_attributes_witness :
  fst (snd (run 2 Call_getResources
              (mock_session "T1" 500,
               mock_world [auth_reply "T2" 2000; json_reply (VList example_descriptors);
                           json_reply (VList example_descriptors)] 1000)))
    !! "_password"
  = Some (VStr "secret").
Proof.
  rewrite (operations_keep_other_attributes (H := mock_env) 2 Call_getResources
             (mock_session "T1" 500,
              mock_world [auth_reply "T2" 2000; json_reply (VList example_descriptors);
                          json_reply (VList example_descriptors)] 1000)
             _ _ "_password" (surjective_pairing _)).
  - vm_compute. reflexivity.
  - vm_compute. intros Hin.
    repeat (destruct Hin as [Hin|Hin]; [discriminate|]). exact Hin.
Defined.

Lemma operations_issue_api_requests_witness :
  exists l,
    trace (snd (snd (run 2 Call_getElecCurrent
                       (mock_session_ids "T1" 500,
                        mock_world [auth_reply "T2" 2000;
                                    json_reply (VList example_descriptors);
                                    reading_reply 1700000000 250 "W";
                                    tariff_reply 0.25 0.5] 1000))))
    = (l ++ [])%list /\
    Forall (fun ro => api_request (fst ro)) l.
Proof.
  exact (proj1 (operations_issue_api_requests (H := mock_env) 2) Call_getElecCurrent
           (mock_session_ids "T1" 500,
            mock_world [auth_reply "T2" 2000;
                        json_reply (VList example_descriptors);
                        reading_reply 1700000000 250 "W";
                        tariff_reply 0.25 0.5] 1000)
           _ _ (surjective_pairing _)).
Defined.

(** ** The query of a readings request *)

Lemma count_char_app (c : ascii) (a b : string) :
  count_char c (a +:+ b) = (count_char c a + count_char c b)%nat.
Proof.
  induction a as [|x a IH]; [reflexivity|].
  change (count_char c (String x (a +:+ b))
          = (count_char c (String x a) + count_char c b)%nat).
  cbn [count_char]. rewrite IH. apply Nat.add_assoc.
Qed.

Lemma hex_digits_unreserved (c : ascii) :
  is_unreserved (hex_digit (N_of_ascii c / 16)) = true /\
  is_unreserved (hex_digit (N_of_ascii c mod 16)) = true.
Proof. destruct c as [[] [] [] [] [] [] [] []]; vm_compute; split; reflexivity. Qed.

Lemma eqb_unreserved (x c : ascii) :
  is_unreserved x = true -> is_unreserved c = false -> Ascii.eqb x c = false.
Proof.
  intros Hx Hc. destruct (Ascii.eqb_spec x c) as [->|_]; [congruence | reflexivity].
Qed.

(** A character that [quote_plus] never writes: it is neither unreserved
    nor [+] nor [%]. *)
Lemma quote_plus_clean (c : ascii) (s : string) :
  is_unreserved c = false -> Ascii.eqb "+" c = false -> Ascii.eqb "%" c = false ->
  count_char c (quote_plus s) = O.
Proof.
  intros Hc Hplus Hpct. induction s as [|x s IH]; [reflexivity|].
  cbn [quote_plus]. rewrite count_char_app, IH, Nat.add_0_r.
  destruct (is_unreserved x) eqn:Hx.
  - cbn [count_char]. rewrite (eqb_unreserved x c Hx Hc). reflexivity.
  - destruct (Ascii.eqb x " ").
    + cbn [count_char]. rewrite Hplus. reflexivity.
    + destruct (hex_digits_unreserved x) as [H1 H2].
      cbn [count_char].
      rewrite Hpct, (eqb_unreserved _ c H1 Hc), (eqb_unreserved _ c H2 Hc). reflexivity.
Qed.

Section Query.
Context {W : Type} `{Environment W}.

(** X13: the readings request cannot be given more or other parameters
    through its arguments.  Whatever strings are passed as dates, period and
    function, the request that [getReading] issues goes to
    [<resource endpoint>/<id>/readings?<query>] where the query has exactly
    four [&] and five [=] and no space, [#] or [?]. *)
Theorem getReading_query_shape
    fuel (self self1 : gmap string value) (w w1 : world W) head
    id dfrom dto period offset func r s' :
  resource_head fuel (self, w) = (Ok head, (self1, w1)) ->
  getReading fuel (VStr id) dfrom dto period offset func (self, w) = (r, s') ->
  exists q o,
    trace (snd s')
    = (head_request (resource_url id ("/readings?" +:+ q)) head, o) :: trace w1 /\
    count_char "&" q = 4%nat /\ count_char "=" q = 5%nat /\
    count_char " " q = O /\ count_char "#" q = O /\ count_char "?" q = O.
Proof.
  intros Hhead Hrun. unfold getReading in Hrun.
  rewrite (bind_ok _ _ _ _ _ Hhead) in Hrun.
  cbn [str_add] in Hrun. rewrite bind_lift_ok in Hrun.
  unfold io in Hrun. cbn [fst snd] in Hrun.
  destruct (postRequest _ _ _ _ w1) as [r0 w2] eqn:Hpost. injection Hrun as _ <-.
  destruct (postRequest_request _ _ _ _ _ _ _ Hpost) as [[Habs _]|(data & o & Henc & Ht)];
    [discriminate|].
  injection Henc as <-.
  exists (urlencode [("from", dfrom); ("to", dto); ("period", period);
                     ("offset", pretty offset); ("function", func)]), o.
  split; [exact Ht|].
  cbn [urlencode].
  repeat split; rewrite !count_char_app;
    rewrite !quote_plus_clean by reflexivity; reflexivity.
Qed.

End Query.

Lemma getReading_query_shape_witness :
  exists q o,
    trace (snd (snd (getReading 1 (VStr "G1") "2024-03-01T00:00:00&function=max" "x y" "PT30M"
                       0 "sum"
                       (mock_session_ids "T1" 2000, mock_world [json_reply (VList [])] 1000))))
    = (head_request (resource_url "G1" ("/readings?" +:+ q))
         [("applicationId", VStr "app"); ("token", VStr "T1")], o) :: [] /\
    count_char "&" q = 4%nat /\ count_char "=" q = 5%nat /\
    count_char " " q = O /\ count_char "#" q = O /\ count_char "?" q = O.
Proof.
  exact (getReading_query_shape (H := mock_env) 1
           (mock_session_ids "T1" 2000) (mock_session_ids "T1" 2000)
           (mock_world [json_reply (VList [])] 1000) (mock_world [json_reply (VList [])] 1000)
           [("applicationId", VStr "app"); ("token", VStr "T1")]
           "G1" "2024-03-01T00:00:00&function=max" "x y" "PT30M" 0 "sum" _ _
           eq_refl (surjective_pairing _)).
Defined.

(** ** The credentials of the module *)

Lemma key_eqb_sym (a b : key) : key_eqb a b = key_eqb b a.
Proof.
  destruct a, b; simpl; try reflexivity; [apply String.eqb_sym | apply Z.eqb_sym].
Qed.

Lemma dict_set_uniq (d : list (key * value)) (k : key) (v : value) :
  uniq_keys d -> uniq_keys (dict_set d k v).
Proof.
  induction d as [|[k' v'] d IH]; intros Hu.
  - simpl. auto.
  - destruct Hu as [Hk Hu]. cbn [dict_set].
    destruct (key_eqb k' k) eqn:E.
    + split; assumption.
    + split; [|apply IH, Hu].
      rewrite dict_get_set_ne; [exact Hk|].
      rewrite key_eqb_sym. exact E.
Qed.

Lemma dict_get_update (upd d : list (key * value)) (k : key) :
  uniq_keys upd ->
  dict_get (dict_update d upd) k
  = match dict_get upd k with
    | Some v => Some v
    | None => dict_get d k
    end.
Proof.
  revert d. induction upd as [|[k' v] upd IH]; intros d Hu; [reflexivity|].
  destruct Hu as [Hk Hu].
  change (dict_update d ((k', v) :: upd)) with (dict_update (dict_set d k' v) upd).
  rewrite (IH _ Hu). cbn [dict_get].
  destruct (key_eqb k' k) eqn:E.
  - apply key_eqb_eq in E. subst k'. rewrite Hk. apply dict_get_set_eq.
  - destruct (dict_get upd k); [reflexivity|].
    apply dict_get_set_ne. exact E.
Qed.

Lemma file_entry_cons (name : string) (k : key) (v : value) (items : list (key * value)) :
  file_entry name ((k, v) :: items)
  = match file_entry name items with
    | Some x => Some x
    | None => match k with
              | KStr s => if String.eqb (str_upper s) name then Some v else None
              | KInt _ => None
              end
    end.
Proof.
  unfold file_entry. cbn [List.filter fst].
  destruct k as [s|i].
  - destruct (String.eqb (str_upper s) name).
    + rewrite last_cons. destruct (last _) as [[k1 v1]|]; reflexivity.
    + destruct (last _) as [[k1 v1]|]; reflexivity.
  - destruct (last _) as [[k1 v1]|]; reflexivity.
Qed.

Lemma upper_keys_spec (items acc : list (key * value)) :
  ascii_keys items = true -> uniq_keys acc ->
  exists u,
    upper_keys items acc = Ok u /\ uniq_keys u /\
    forall name,
      dict_get u (KStr name)
      = match file_entry name items with
        | Some v => Some v
        | None => dict_get acc (KStr name)
        end.
Proof.
  revert acc. induction items as [|[k v] items IH]; intros acc Hk Hu.
  - exists acc. repeat split; auto.
  - cbn [ascii_keys forallb fst] in Hk. apply andb_prop in Hk as [Hs Hk].
    destruct k as [s|i]; [|discriminate].
    destruct (IH (dict_set acc (KStr (str_upper s)) v) Hk (dict_set_uniq _ _ _ Hu))
      as (u & Hrun & Huu & Hget).
    exists u. split; [exact Hrun|]. split; [exact Huu|].
    intros name. rewrite Hget, file_entry_cons.
    destruct (file_entry name items); [reflexivity|].
    destruct (String.eqb_spec (str_upper s) name) as [->|Hne].
    + apply dict_get_set_eq.
    + apply dict_get_set_ne. simpl. apply String.eqb_neq. exact Hne.
Qed.

Lemma getParameter_resolved (environ : gmap string string) (name : string)
    (c : list (key * value)) (d : value) :
  dict_get c (KStr name) = Some d ->
  getParameter environ name (VDict c)
  = Ok (match environ !! name with Some v => VStr v | None => d end).
Proof. intros Hd. unfold getParameter. cbn [py_getitem]. rewrite Hd. reflexivity. Qed.

(** X14: the three credentials are resolved by precedence.  With no
    credentials file, or with one that holds a JSON object with ASCII keys,
    each of [_APP_ID], [_USERNAME] and [_PASSWORD] is the environment
    variable of that name if it is set; else the value of the last key of
    the file that is the name up to letter case; else the empty string.
    Resolving never fails, whatever other keys the file has. *)
Theorem credentials_precedence (environ : gmap string string) (file : cred_file)
    (items : list (key * value)) :
  (file = NoFile /\ items = []) \/
  (file = FileContent (Some (VDict items)) /\ ascii_keys items = true) ->
  module_credentials file environ
  = Ok (resolved environ items "APP_ID",
        resolved environ items "USERNAME",
        resolved environ items "PASSWORD").
Proof.
  intros [[-> ->]|[-> Hk]].
  { unfold module_credentials, load_credentials, getParameter, resolved.
    cbn [rbind py_getitem dict_get cred key_eqb String.eqb Ascii.eqb Bool.eqb file_entry
         List.filter last].
    change (file_entry "APP_ID" []) with (@None value).
    change (file_entry "USERNAME" []) with (@None value).
    change (file_entry "PASSWORD" []) with (@None value).
    destruct (environ !! "APP_ID"), (environ !! "USERNAME"), (environ !! "PASSWORD");
      reflexivity. }
  destruct (upper_keys_spec items [] Hk I) as (u & Hrun & Hu & Hget).
  assert (Hc : forall name,
             In name ["APP_ID"; "USERNAME"; "PASSWORD"] ->
             dict_get (dict_update cred u) (KStr name)
             = Some (match file_entry name items with Some v => v | None => VStr "" end)).
  { intros name Hin. rewrite (dict_get_update u cred _ Hu), Hget.
    destruct (file_entry name items); [reflexivity|]. cbn [dict_get].
    destruct Hin as [<-|[<-|[<-|[]]]]; reflexivity. }
  unfold module_credentials, load_credentials. rewrite Hrun. cbn [rbind].
  rewrite (getParameter_resolved environ "APP_ID" _ _ (Hc "APP_ID" ltac:(simpl; auto))).
  rewrite (getParameter_resolved environ "USERNAME" _ _ (Hc "USERNAME" ltac:(simpl; auto))).
  rewrite (getParameter_resolved environ "PASSWORD" _ _ (Hc "PASSWORD" ltac:(simpl; auto))).
  cbn [rbind]. unfold resolved.
  destruct (environ !! "APP_ID"), (environ !! "USERNAME"), (environ !! "PASSWORD");
    destruct (file_entry "APP_ID" items), (file_entry "USERNAME" items),
             (file_entry "PASSWORD" items); reflexivity.
Qed.

Lemma credentials_precedence_witness :
  module_credentials
    (FileContent (Some (VDict [(KStr "app_id", VStr "a1"); (KStr "Username", VStr "u1");
                               (KStr "USERNAME", VStr "u2"); (KStr "password", VStr "p1");
                               (KStr "note", VInt 3)])))
    (<["PASSWORD" := "p-env"]> ∅)
  = Ok (VStr "a1", VStr "u2", VStr "p-env").
Proof.
  rewrite (credentials_precedence (<["PASSWORD" := "p-env"]> ∅) _
             [(KStr "app_id", VStr "a1"); (KStr "Username", VStr "u1");
              (KStr "USERNAME", VStr "u2"); (KStr "password", VStr "p1");
              (KStr "note", VInt 3)] (or_intror (conj eq_refl eq_refl))).
  vm_compute. reflexivity.
Defined.

(** ** A window without readings *)

Section EmptyWindow.
Context {W : Type} `{Environment W}.

(** X15: when the readings of the last thirty minutes come back with an
    empty [data] list, [getGasCurrent] raises [IndexError].  It has then
    issued the readings request and the current-resource request, and the
    tariff is not requested. *)
Theorem getGasCurrent_empty_window
    fuel (self self1 self2 : gmap string value) (w w1 w2 : world W)
    d e0 d30 gid gid2 head1 head2 o1 gud e2 o2 cur e4 :
  datetime_today (env w) = (d, e0) ->
  minus_30_minutes d = Ok d30 ->
  self !! "gasConsumptionId" = Some (VStr gid) ->
  resource_head fuel (self, mkworld e0 (trace w) (logged w)) = (Ok head1, (self1, w1)) ->
  answers (env w1)
    (head_request (readings_url gid (strftime_minute d30) (strftime_minute d) "PT30M" 0 "sum")
       head1) o1 (VDict gud) e2 ->
  dict_get gud (KStr "data") = Some (VList []) ->
  self1 !! "gasConsumptionId" = Some (VStr gid2) ->
  resource_head fuel
    (self1,
     mkworld e2
       ((head_request
           (readings_url gid (strftime_minute d30) (strftime_minute d) "PT30M" 0 "sum") head1,
         o1) :: trace w1) (logged w1))
  = (Ok head2, (self2, w2)) ->
  answers (env w2) (head_request (resource_url gid2 "/current") head2) o2 cur e4 ->
  getGasCurrent fuel (self, w)
  = (Raise IndexError,
     (self2,
      mkworld e4 ((head_request (resource_url gid2 "/current") head2, o2) :: trace w2)
        (logged w2))).
Proof.
  intros Htoday Hm30 Hgid Hh1 Ha1 Hdata Hgid2 Hh2 Ha2.
  unfold getGasCurrent.
  assert (Ht : today w = (Ok d, mkworld e0 (trace w) (logged w)))
    by (unfold today; rewrite Htoday; reflexivity).
  rewrite (bind_ok _ _ _ _ _ (io_run _ self _ _ _ Ht)).
  rewrite Hm30, bind_lift_ok.
  rewrite (bind_ok _ _ _ _ _ (get_attr_some _ _ _ _ Hgid)).
  rewrite (bind_ok _ _ _ _ _ (getReading_answered fuel _ _ _ _ _ _ _ _ _ _ _ _ _ _ Hh1 Ha1)).
  rewrite (bind_ok _ _ _ _ _ (get_attr_some _ _ _ _ Hgid2)).
  rewrite (bind_ok _ _ _ _ _ (getCurResource_answered fuel _ _ _ _ _ _ _ _ _ Hh2 Ha2)).
  cbn [getpath py_getitem rbind]. rewrite Hdata. reflexivity.
Qed.

End EmptyWindow.

Lemma getGasCurrent_empty_window_witness :
  fst (getGasCurrent 1
         (mock_session_ids "T1" 2000,
          mock_world [json_reply (VDict [(KStr "data", VList []); (KStr "units", VStr "kWh")]);
                      reading_reply 1709251200 5 "kWh"; tariff_reply 3.5 25] 1000))
  = Raise IndexError.
Proof.
  pose (today := mkdatetime 2024 3 1 0 10 5 7).
  pose (head := [("applicationId", VStr "app"); ("token", VStr "T1")]).
  pose (empty := json_reply (VDict [(KStr "data", VList []); (KStr "units", VStr "kWh")])).
  pose (req1 := head_request
                  (readings_url "G1" "2024-02-29T23:40:00" "2024-03-01T00:10:00" "PT30M" 0 "sum")
                  head).
  refine (f_equal fst (getGasCurrent_empty_window (H := mock_env) 1
             (mock_session_ids "T1" 2000) (mock_session_ids "T1" 2000)
             (mock_session_ids "T1" 2000)
             (mock_world [empty; reading_reply 1709251200 5 "kWh"; tariff_reply 3.5 25] 1000)
             (mock_world [empty; reading_reply 1709251200 5 "kWh"; tariff_reply 3.5 25] 1000)
             (mkworld (mkmock [reading_reply 1709251200 5 "kWh"; tariff_reply 3.5 25] 1000 today)
                [(req1, empty)] [])
             today
             (mkmock [empty; reading_reply 1709251200 5 "kWh"; tariff_reply 3.5 25] 1000 today)
             (mkdatetime 2024 2 29 23 40 5 7)
             "G1" "G1" head head empty
             [(KStr "data", VList []); (KStr "units", VStr "kWh")]
             (mkmock [reading_reply 1709251200 5 "kWh"; tariff_reply 3.5 25] 1000 today)
             (reading_reply 1709251200 5 "kWh")
             (VDict [(KStr "data", VList [VList [VInt 1709251200; VInt 5]]);
                     (KStr "units", VStr "kWh")])
             (mkmock [tariff_reply 3.5 25] 1000 today) _ _ _ _ _ _ _ _ _));
    try (vm_compute; reflexivity); try (split; vm_compute; reflexivity).
Defined.
